(** * weather_gui.py: a shallow embedding and its specification

    The program is a Tk desktop client: two handlers ([on_get_weather],
    [on_use_location]) call [fetch_and_display], which calls the weather
    provider through [requests] and writes the result into the widgets.

    The embedding follows the source line by line.  Python values decoded
    from JSON are an inductive type, dictionaries are [gmap]s, exceptions
    are a result type, and the handlers are written in a state-and-exception
    monad over the application object, the log of modal dialogs and the log
    of HTTP requests.  The network is a function from requests to replies. *)

From Stdlib Require Import ZArith Ascii String List Lia.
From stdpp Require Import base option gmap strings list fin_maps pretty.

Set Warnings "-register-all".
Local Open Scope string_scope.
Local Open Scope Z_scope.

(** ** Python values *)

(** A Python number.  A float is kept as a decimal literal that denotes it
    (the text it had in the JSON document, or [repr] of it). *)
Inductive pynum :=
  | PInt (z : Z)
  | PFloat (lit : string).

(** What [json.loads] builds: None, bool, int, float, str, list, dict.  A
    dict decoded from JSON has [str] keys only. *)
Inductive pyval :=
  | VNone
  | VBool (b : bool)
  | VNum (n : pynum)
  | VStr (s : string)
  | VList (l : list pyval)
  | VDict (m : gmap string pyval).

(** ** Text as UTF-8

    A Python [str] is a sequence of code points; it is modelled by its UTF-8
    encoding, one [ascii] per byte.  [chars] splits a text into its code
    points: a byte [10xxxxxx] continues the character before it. *)

Definition is_continuation (c : ascii) : bool :=
  let n := N_of_ascii c in ((128 <=? n) && (n <? 192))%N.

Fixpoint chars_from (cur : string) (s : string) : list string :=
  match s with
  | EmptyString => [cur]
  | String c s' =>
      if is_continuation c then chars_from (cur +:+ String c "") s'
      else cur :: chars_from (String c "") s'
  end.

Definition chars (s : string) : list string :=
  match s with
  | EmptyString => []
  | String c s' => chars_from (String c "") s'
  end.

(** [''.join(l)] *)
Definition join (l : list string) : string := foldr String.app "" l.

(** The characters for which [str.isspace] holds, in UTF-8 (CPython's
    [_PyUnicode_IsWhitespace]): U+0009..U+000D, U+001C..U+0020, U+0085,
    U+00A0, U+1680, U+2000..U+200A, U+2028, U+2029, U+202F, U+205F,
    U+3000. *)
Definition is_space (ch : string) : bool :=
  match list_ascii_of_string ch with
  | [a] =>
      let n := N_of_ascii a in
      (((9 <=? n) && (n <=? 13)) || ((28 <=? n) && (n <=? 32)))%N
  | [a; b] =>
      (N_of_ascii a =? 194)%N && ((N_of_ascii b =? 133) || (N_of_ascii b =? 160))%N
  | [a; b; c] =>
      let '(x, y, z) := (N_of_ascii a, N_of_ascii b, N_of_ascii c) in
      (((x =? 225) && (y =? 154) && (z =? 128))
       || ((x =? 226) && (y =? 128)
           && (((128 <=? z) && (z <=? 138)) || (z =? 168) || (z =? 169) || (z =? 175)))
       || ((x =? 226) && (y =? 129) && (z =? 159))
       || ((x =? 227) && (y =? 128) && (z =? 128)))%N
  | _ => false
  end.

Fixpoint lstrip_chars (l : list string) : list string :=
  match l with
  | [] => []
  | ch :: l' => if is_space ch then lstrip_chars l' else l
  end.

Definition rstrip_chars (l : list string) : list string :=
  rev (lstrip_chars (rev l)).

(** [str.strip()] *)
Definition strip (s : string) : string :=
  join (rstrip_chars (lstrip_chars (chars s))).

(** ** Built-ins kept abstract

    Parts of the Python run time whose full definition is a table or a
    floating-point algorithm: Unicode casing in [str.title], the shortest
    [repr] of a float, [repr] of a container, and conversions to float. *)
Class Builtins := {
  (** [s.title()] *)
  title : string → string;
  title_empty : title "" = "";
  (** [str(x)] of the float denoted by a literal *)
  float_repr : string → string;
  (** [bool(x)] of the float denoted by a literal *)
  float_nonzero : string → bool;
  (** [str(v)] of a list or a dict *)
  container_repr : pyval → string;
  (** [float(n)] of an int: [None] is OverflowError *)
  int_to_float : Z → option string;
  (** [float(s)] of a str: [None] is ValueError *)
  str_to_float : string → option string
}.

(** ** Exceptions and results *)

Inductive image := Image (src : string) (width height : Z).

(** What [r.json()] does on a response: return the decoded value, or raise.
    [NotJson true text] raises [requests.exceptions.JSONDecodeError] (a
    [RequestException], requests 2.27 and later); [NotJson false text]
    raises a plain [ValueError] (earlier versions). *)
Inductive body_view :=
  | Json (v : pyval)
  | NotJson (as_request_exception : bool) (text : string).

(** A [requests.Response]: [picture] is what [Image.open] makes of
    [content] ([None] when PIL cannot decode it). *)
Record response := {
  status_code : Z;
  reason : string;
  url : string;
  body : body_view;
  picture : option image
}.

Inductive exn :=
  | HTTPError (msg : string) (r : response)
  | RequestException (msg : string)
  | ValueError
  | AttributeError
  | IndexError
  | KeyError
  | TypeError
  | OverflowError
  | UnidentifiedImageError.

Inductive result (A : Type) :=
  | Ok (a : A)
  | Raise (e : exn).
Arguments Ok {A} a.
Arguments Raise {A} e.

#[global] Instance result_ret : MRet result := λ A a, Ok a.
#[global] Instance result_bind : MBind result := λ A B f r,
  match r with
  | Ok a => f a
  | Raise e => Raise e
  end.

(** ** Operations on Python values *)

(** [v.get(k, default)]: only a dict has [get]. *)
Definition py_get (v : pyval) (k : string) (dflt : pyval) : result pyval :=
  match v with
  | VDict m => Ok (default dflt (m !! k))
  | _ => Raise AttributeError
  end.

(** [v[k]] with a string key. *)
Definition py_getitem (v : pyval) (k : string) : result pyval :=
  match v with
  | VDict m => match m !! k with Some x => Ok x | None => Raise KeyError end
  | VNone | VBool _ | VNum _ => Raise TypeError
  | VStr _ | VList _ => Raise TypeError
  end.

(** [v[0]].  A dict decoded from JSON has no key [0]. *)
Definition py_index0 (v : pyval) : result pyval :=
  match v with
  | VList (x :: _) => Ok x
  | VList [] => Raise IndexError
  | VStr s => match chars s with ch :: _ => Ok (VStr ch) | [] => Raise IndexError end
  | VDict _ => Raise KeyError
  | VNone | VBool _ | VNum _ => Raise TypeError
  end.

(** The elements of [v[:n]] in the order a [for] loop visits them: the
    items of a list, the one-character strings of a str.  On a dict the
    slice is TypeError (unhashable slice) up to Python 3.11 and KeyError
    from 3.12 on. *)
Definition py_slice_to (n : nat) (v : pyval) : result (list pyval) :=
  match v with
  | VList l => Ok (take n l)
  | VStr s => Ok (VStr <$> take n (chars s))
  | VDict _ => Raise TypeError
  | VNone | VBool _ | VNum _ => Raise TypeError
  end.

Section Python.
Context `{Py : Builtins}.

(** [v.title()]: only a str has [title]. *)
Definition py_title (v : pyval) : result string :=
  match v with
  | VStr s => Ok (title s)
  | _ => Raise AttributeError
  end.

(** [bool(v)] *)
Definition truthy (v : pyval) : bool :=
  match v with
  | VNone => false
  | VBool b => b
  | VNum (PInt z) => negb (z =? 0)
  | VNum (PFloat lit) => float_nonzero lit
  | VStr s => negb (String.eqb s "")
  | VList l => negb (Nat.eqb (length l) 0)
  | VDict m => negb (Nat.eqb (size m) 0)
  end.

(** [f"{v}"], that is [format(v, "")], which is [str(v)] for these
    types. *)
Definition fmt (v : pyval) : string :=
  match v with
  | VNone => "None"
  | VBool true => "True"
  | VBool false => "False"
  | VNum (PInt z) => pretty z
  | VNum (PFloat lit) => float_repr lit
  | VStr s => s
  | VList _ | VDict _ => container_repr v
  end.

(** [float(v)] *)
Definition py_float (v : pyval) : result pynum :=
  match v with
  | VNum (PFloat lit) => Ok (PFloat lit)
  | VNum (PInt z) =>
      match int_to_float z with
      | Some lit => Ok (PFloat lit)
      | None => Raise OverflowError
      end
  | VBool b => Ok (PFloat (if b then "1.0" else "0.0"))
  | VStr s =>
      match str_to_float s with
      | Some lit => Ok (PFloat lit)
      | None => Raise ValueError
      end
  | VNone | VList _ | VDict _ => Raise TypeError
  end.
End Python.

(** ** The application object, the dialogs and the network *)

(** A [tk.Text]: [insert] and [delete] act only in state "normal". *)
Record text_widget := {
  tw_text : string;
  tw_normal : bool
}.

Definition tw_configure (normal : bool) (t : text_widget) : text_widget :=
  {| tw_text := tw_text t; tw_normal := normal |}.

(** [t.delete("1.0", "end")] *)
Definition tw_delete_all (t : text_widget) : text_widget :=
  if tw_normal t then {| tw_text := ""; tw_normal := true |} else t.

(** [t.insert("1.0", s)] *)
Definition tw_insert_start (s : string) (t : text_widget) : text_widget :=
  if tw_normal t then {| tw_text := s +:+ tw_text t; tw_normal := true |} else t.

(** The attributes of [WeatherApp] that the handlers read or write.
    [unit_var] is [self.unit]; a label holds its text, [icon_label] its
    image ([None] for [image=""]). *)
Record app := {
  city_var : string;
  unit_var : string;
  city_label : string;
  icon_label : option image;
  cond_label : string;
  temp_label : string;
  detail_label : string;
  forecast_text : text_widget;
  icon_img : option image
}.

Definition set_city_label (s : string) (a : app) : app :=
  {| city_var := city_var a; unit_var := unit_var a; city_label := s;
     icon_label := icon_label a; cond_label := cond_label a;
     temp_label := temp_label a; detail_label := detail_label a;
     forecast_text := forecast_text a; icon_img := icon_img a |}.

Definition set_cond_label (s : string) (a : app) : app :=
  {| city_var := city_var a; unit_var := unit_var a; city_label := city_label a;
     icon_label := icon_label a; cond_label := s;
     temp_label := temp_label a; detail_label := detail_label a;
     forecast_text := forecast_text a; icon_img := icon_img a |}.

Definition set_temp_label (s : string) (a : app) : app :=
  {| city_var := city_var a; unit_var := unit_var a; city_label := city_label a;
     icon_label := icon_label a; cond_label := cond_label a;
     temp_label := s; detail_label := detail_label a;
     forecast_text := forecast_text a; icon_img := icon_img a |}.

Definition set_detail_label (s : string) (a : app) : app :=
  {| city_var := city_var a; unit_var := unit_var a; city_label := city_label a;
     icon_label := icon_label a; cond_label := cond_label a;
     temp_label := temp_label a; detail_label := s;
     forecast_text := forecast_text a; icon_img := icon_img a |}.

Definition set_icon_label (i : option image) (a : app) : app :=
  {| city_var := city_var a; unit_var := unit_var a; city_label := city_label a;
     icon_label := i; cond_label := cond_label a;
     temp_label := temp_label a; detail_label := detail_label a;
     forecast_text := forecast_text a; icon_img := icon_img a |}.

Definition set_icon_img (i : option image) (a : app) : app :=
  {| city_var := city_var a; unit_var := unit_var a; city_label := city_label a;
     icon_label := icon_label a; cond_label := cond_label a;
     temp_label := temp_label a; detail_label := detail_label a;
     forecast_text := forecast_text a; icon_img := i |}.

Definition upd_forecast_text (f : text_widget → text_widget) (a : app) : app :=
  {| city_var := city_var a; unit_var := unit_var a; city_label := city_label a;
     icon_label := icon_label a; cond_label := cond_label a;
     temp_label := temp_label a; detail_label := detail_label a;
     forecast_text := f (forecast_text a); icon_img := icon_img a |}.

Inductive modal_kind := ShowInfo | ShowError.

(** One call of [messagebox.showinfo] or [messagebox.showerror]. *)
Record modal := {
  m_kind : modal_kind;
  m_title : string;
  m_message : pyval
}.

(** One call of [requests.get(url, params=..., timeout=...)]; a call
    without [params] has the empty map. *)
Record request := {
  req_url : string;
  req_params : gmap string pyval;
  req_timeout : Z
}.

(** What the network does with a request: no usable response ([requests.get]
    raises a [RequestException]: connection error, timeout, ...) or a
    response. *)
Inductive reply :=
  | NoReply (msg : string)
  | Reply (r : response).

(** The state the handlers act on: the widgets, the dialogs shown so far
    and the requests sent so far, oldest first. *)
Record world := {
  gui : app;
  modals : list modal;
  sent : list request
}.

(** ** The monad of handlers: state and exceptions *)

Definition M (A : Type) : Type := world → result A * world.

#[global] Instance M_ret : MRet M := λ A a w, (Ok a, w).
#[global] Instance M_bind : MBind M := λ A B f c w,
  match c w with
  | (Ok a, w') => f a w'
  | (Raise e, w') => (Raise e, w')
  end.

Definition lift {A} (r : result A) : M A := λ w, (r, w).

Definition raise {A} (e : exn) : M A := λ w, (Raise e, w).

Definition get_app : M app := λ w, (Ok (gui w), w).

Definition modify_app (f : app → app) : M () := λ w,
  (Ok (), {| gui := f (gui w); modals := modals w; sent := sent w |}).

Definition show (k : modal_kind) (t : string) (msg : pyval) : M () := λ w,
  (Ok (), {| gui := gui w;
             modals := modals w ++ [{| m_kind := k; m_title := t; m_message := msg |}];
             sent := sent w |}).

Definition showinfo := show ShowInfo.
Definition showerror := show ShowError.

(** [try: c  except ...: on_exn e  else: on_ok a] *)
Definition try_else {A B} (c : M A) (on_exn : exn → M B) (on_ok : A → M B) : M B :=
  λ w, match c w with
       | (Ok a, w') => on_ok a w'
       | (Raise e, w') => on_exn e w'
       end.

(** [try: c  except Exception: h] *)
Definition try_except {A} (c : M A) (h : M A) : M A :=
  try_else c (λ _, h) mret.

(** ** The [requests] library *)

(** [Response.raise_for_status]: HTTPError for a status in 400..599, with
    the message [requests] builds. *)
Definition raise_for_status (r : response) : result () :=
  let s := status_code r in
  if (400 <=? s) && (s <? 500) then
    Raise (HTTPError (pretty s +:+ " Client Error: " +:+ reason r
                      +:+ " for url: " +:+ url r) r)
  else if (500 <=? s) && (s <? 600) then
    Raise (HTTPError (pretty s +:+ " Server Error: " +:+ reason r
                      +:+ " for url: " +:+ url r) r)
  else Ok ().

(** [Response.json] *)
Definition response_json (r : response) : result pyval :=
  match body r with
  | Json v => Ok v
  | NotJson true msg => Raise (RequestException msg)
  | NotJson false _ => Raise ValueError
  end.

(** [Image.open(io.BytesIO(r.content))] *)
Definition image_open (r : response) : result image :=
  match picture r with
  | Some im => Ok im
  | None => Raise UnidentifiedImageError
  end.

(** [im.resize((w, h))] *)
Definition resize (im : image) (w h : Z) : image :=
  match im with Image src _ _ => Image src w h end.

Definition nl : string := String (ascii_of_nat 10) "".

(** ** The program *)

Section Program.
Context `{Py : Builtins}.

(** [API_KEY]: read at start-up, where the program exits unless it is
    non-empty. *)
Variable API_KEY : string.

(** The network the program talks to. *)
Variable net : request → reply.

Definition WEATHER_URL : string := "https://api.openweathermap.org/data/2.5/weather".
Definition FORECAST_URL : string := "https://api.openweathermap.org/data/2.5/forecast".
Definition LOCATION_URL : string := "http://ip-api.com/json/".

(** [ICON_URL.format(code)] *)
Definition ICON_URL (code : pyval) : string :=
  "http://openweathermap.org/img/wn/" +:+ fmt code +:+ "@2x.png".

(** [requests.get]: the request is sent, then the reply decides. *)
Definition requests_get (u : string) (params : gmap string pyval) (timeout : Z)
  : M response := λ w,
  let rq := {| req_url := u; req_params := params; req_timeout := timeout |} in
  let w' := {| gui := gui w; modals := modals w; sent := sent w ++ [rq] |} in
  match net rq with
  | NoReply msg => (Raise (RequestException msg), w')
  | Reply r => (Ok r, w')
  end.

(** The [params] dict that [fetch_weather] and [fetch_forecast] build. *)
Definition query_params (q lat lon : pyval) (units : string) : gmap string pyval :=
  let params := <["units" := VStr units]> (<["appid" := VStr API_KEY]> ∅) in
  if truthy q then <["q" := q]> params
  else <["lon" := lon]> (<["lat" := lat]> params).

Definition fetch_weather (q lat lon : pyval) (units : string) : M pyval :=
  r ← requests_get WEATHER_URL (query_params q lat lon units) 10;
  _ ← lift (raise_for_status r);
  lift (response_json r).

Definition fetch_forecast (q lat lon : pyval) (units : string) : M pyval :=
  r ← requests_get FORECAST_URL (query_params q lat lon units) 10;
  _ ← lift (raise_for_status r);
  lift (response_json r).

(** The body of the [try] in [my_location]. *)
Definition my_location_try : M (pyval * pyval) :=
  resp ← requests_get LOCATION_URL ∅ 6;
  _ ← lift (raise_for_status resp);
  data ← lift (response_json resp);
  la ← lift (x ← py_getitem data "lat"; py_float x);
  lo ← lift (x ← py_getitem data "lon"; py_float x);
  mret (VNum la, VNum lo).

Definition my_location : M (pyval * pyval) :=
  try_except my_location_try (mret (VNone, VNone)).

(** Lines 139-146: what is read from the response before any widget is
    touched. *)
Record current_fields := {
  f_name : pyval;
  f_country : pyval;
  f_weather_desc : string;
  f_temp : pyval;
  f_feels : pyval;
  f_humidity : pyval;
  f_wind : pyval
}.

Definition units_label_of (units : string) : string :=
  if String.eqb units "metric" then "°C" else "°F".

(** [d.get(k1, {}).get(k2, dflt)] *)
Definition get_in (d : pyval) (k1 k2 : string) (dflt : pyval) : result pyval :=
  x ← py_get d k1 (VDict ∅);
  py_get x k2 dflt.

(** [d.get("weather", [{}])[0]] *)
Definition first_weather (d : pyval) : result pyval :=
  w ← py_get d "weather" (VList [VDict ∅]);
  py_index0 w.

(** [d.get("weather", [{}])[0].get("description", "").title()] *)
Definition description_title (d : pyval) : result string :=
  w0 ← first_weather d;
  s ← py_get w0 "description" (VStr "");
  py_title s.

Definition read_current (data : pyval) : result current_fields :=
  name ← py_get data "name" (VStr "");
  country ← get_in data "sys" "country" (VStr "");
  weather_desc ← description_title data;
  temp ← get_in data "main" "temp" VNone;
  feels ← get_in data "main" "feels_like" VNone;
  humidity ← get_in data "main" "humidity" VNone;
  wind ← get_in data "wind" "speed" VNone;
  mret {| f_name := name; f_country := country; f_weather_desc := weather_desc;
          f_temp := temp; f_feels := feels; f_humidity := humidity;
          f_wind := wind |}.

(** Lines 148-151 *)
Definition show_current (f : current_fields) (units_label : string) : M () :=
  _ ← modify_app (set_city_label (fmt (f_name f) +:+ ", " +:+ fmt (f_country f)));
  _ ← modify_app (set_cond_label (f_weather_desc f));
  _ ← modify_app (set_temp_label (fmt (f_temp f) +:+ " " +:+ units_label));
  modify_app (set_detail_label
    ("Feels like: " +:+ fmt (f_feels f) +:+ " " +:+ units_label
     +:+ " | Humidity: " +:+ fmt (f_humidity f)
     +:+ "% | Wind: " +:+ fmt (f_wind f) +:+ " m/s")).

(** Line 154 *)
Definition read_icon_code (data : pyval) : result pyval :=
  w0 ← first_weather data;
  py_get w0 "icon" VNone.

(** Lines 157-162: the body of the icon [try]. *)
Definition icon_try (icon_code : pyval) : M () :=
  img_resp ← requests_get (ICON_URL icon_code) ∅ 8;
  _ ← lift (raise_for_status img_resp);
  pil_img ← lift (image_open img_resp);
  let photo := resize pil_img 100 100 in
  _ ← modify_app (set_icon_img (Some photo));
  modify_app (set_icon_label (Some photo)).

(** Lines 155-164 *)
Definition show_icon (icon_code : pyval) : M () :=
  if truthy icon_code then
    try_except (icon_try icon_code) (modify_app (set_icon_label None))
  else mret ().

(** Lines 173-176: one pass of the loop body, giving the line added to
    [text]. *)
Definition forecast_line (it : pyval) (units_label : string) : result string :=
  dt ← py_get it "dt_txt" (VStr "—");
  t ← get_in it "main" "temp" (VStr "—");
  desc ← description_title it;
  mret (fmt dt +:+ " — " +:+ fmt t +:+ units_label +:+ " — " +:+ desc +:+ nl).

(** Lines 171-176: the loop, from the text accumulated so far. *)
Fixpoint forecast_loop (items : list pyval) (units_label : string) (text : string)
  : result string :=
  match items with
  | [] => Ok text
  | it :: rest =>
      line ← forecast_line it units_label;
      forecast_loop rest units_label (text +:+ line)
  end.

(** Lines 177-180 and 183-186 *)
Definition set_forecast_text (text : string) : M () :=
  _ ← modify_app (upd_forecast_text (tw_configure true));
  _ ← modify_app (upd_forecast_text tw_delete_all);
  _ ← modify_app (upd_forecast_text (tw_insert_start text));
  modify_app (upd_forecast_text (tw_configure false)).

(** Lines 168-180: the body of the forecast [try]. *)
Definition forecast_try (q lat lon : pyval) (units units_label : string) : M () :=
  fc ← fetch_forecast q lat lon units;
  items ← lift (l ← py_get fc "list" (VList []); py_slice_to 5 l);
  text ← lift (forecast_loop items units_label "");
  set_forecast_text text.

Definition NO_FORECAST : string := "No forecast available.".

(** Lines 166-186 *)
Definition show_forecast (q lat lon : pyval) (units units_label : string) : M () :=
  try_except (forecast_try q lat lon units units_label)
             (set_forecast_text NO_FORECAST).

(** Lines 138-164: the current conditions and the icon. *)
Definition display_current (units : string) (data : pyval) : M () :=
  f ← lift (read_current data);
  let units_label := units_label_of units in
  _ ← show_current f units_label;
  icon_code ← lift (read_icon_code data);
  show_icon icon_code.

(** Lines 138-186: what [fetch_and_display] does with a decoded
    current-conditions response. *)
Definition display (q lat lon : pyval) (units : string) (data : pyval) : M () :=
  _ ← display_current units data;
  show_forecast q lat lon units (units_label_of units).

(** Lines 127-136: the two [except] clauses around [fetch_weather]; any
    other exception propagates. *)
Definition on_fetch_error (e : exn) : M () :=
  match e with
  | HTTPError text r =>
      let msg :=
        match (d ← response_json r; py_get d "message" (VStr text)) with
        | Ok v => v
        | Raise _ => VStr text
        end in
      showerror "API error" msg
  | RequestException text => showerror "Network error" (VStr text)
  | _ => raise e
  end.

Definition fetch_and_display (q lat lon : pyval) : M () :=
  a ← get_app;
  let units := unit_var a in
  try_else (fetch_weather q lat lon units) on_fetch_error
           (display q lat lon units).

Definition on_get_weather : M () :=
  a ← get_app;
  let q := strip (city_var a) in
  if negb (truthy (VStr q)) then
    showinfo "Input needed" (VStr "Enter a city name or click Use My Location.")
  else fetch_and_display (VStr q) VNone VNone.

Definition on_use_location : M () :=
  loc ← my_location;
  match loc with
  | (VNone, _) => showerror "Location failed" (VStr "Could not detect location via IP.")
  | (lat, lon) => fetch_and_display VNone lat lon
  end.
End Program.

(** ** A reference instance and sample data

    [ref_builtins] runs the program on examples.  It is adequate for ASCII
    text, for floats whose literal is already their [repr], and for small
    ints; [container_repr] is a placeholder, and no sample below formats a
    container or converts a str to float. *)

Definition is_upper (c : ascii) : bool :=
  let n := N_of_ascii c in ((65 <=? n) && (n <=? 90))%N.

Definition is_lower (c : ascii) : bool :=
  let n := N_of_ascii c in ((97 <=? n) && (n <=? 122))%N.

Definition to_upper (c : ascii) : ascii :=
  if is_lower c then ascii_of_N (N_of_ascii c - 32) else c.

Definition to_lower (c : ascii) : ascii :=
  if is_upper c then ascii_of_N (N_of_ascii c + 32) else c.

(** [str.title] on ASCII: a letter after a letter is lowered, a letter
    after anything else is raised. *)
Fixpoint ascii_title_from (previous_is_cased : bool) (s : string) : string :=
  match s with
  | EmptyString => EmptyString
  | String c s' =>
      let cased := is_upper c || is_lower c in
      String (if previous_is_cased then to_lower c else to_upper c)
             (ascii_title_from cased s')
  end.

Definition ascii_title (s : string) : string := ascii_title_from false s.

Definition ref_builtins : Builtins := {|
  title := ascii_title;
  title_empty := eq_refl;
  float_repr := λ lit, lit;
  float_nonzero := λ lit, negb (String.eqb lit "0.0" || String.eqb lit "-0.0");
  container_repr := λ _, "<container>";
  int_to_float := λ z, Some (pretty z +:+ ".0");
  str_to_float := λ _, None
|}.

(** The window as [create_widgets] leaves it. *)
Definition initial_app : app := {|
  city_var := "Bengaluru";
  unit_var := "metric";
  city_label := "";
  icon_label := None;
  cond_label := "";
  temp_label := "";
  detail_label := "";
  forecast_text := {| tw_text := ""; tw_normal := false |};
  icon_img := None
|}.

Definition initial_world : world :=
  {| gui := initial_app; modals := []; sent := [] |}.

Definition with_city (s : string) (w : world) : world :=
  {| gui := {| city_var := s; unit_var := unit_var (gui w);
               city_label := city_label (gui w); icon_label := icon_label (gui w);
               cond_label := cond_label (gui w); temp_label := temp_label (gui w);
               detail_label := detail_label (gui w);
               forecast_text := forecast_text (gui w); icon_img := icon_img (gui w) |};
     modals := modals w; sent := sent w |}.

Definition with_unit (s : string) (w : world) : world :=
  {| gui := {| city_var := city_var (gui w); unit_var := s;
               city_label := city_label (gui w); icon_label := icon_label (gui w);
               cond_label := cond_label (gui w); temp_label := temp_label (gui w);
               detail_label := detail_label (gui w);
               forecast_text := forecast_text (gui w); icon_img := icon_img (gui w) |};
     modals := modals w; sent := sent w |}.

(** A response with the given status and decoded body. *)
Definition json_response (status : Z) (v : pyval) : response :=
  {| status_code := status; reason := "-"; url := "-"; body := Json v;
     picture := None |}.

Definition png_response (src : string) : response :=
  {| status_code := 200; reason := "OK"; url := "-";
     body := NotJson true "Expecting value"; picture := Some (Image src 100 100) |}.

(** A network that answers by endpoint. *)
Definition net_of (weather forecast location icon : reply) : request → reply :=
  λ rq,
    if String.eqb (req_url rq) WEATHER_URL then weather
    else if String.eqb (req_url rq) FORECAST_URL then forecast
    else if String.eqb (req_url rq) LOCATION_URL then location
    else icon.

Definition obj (l : list (string * pyval)) : pyval := VDict (list_to_map l).

Definition num (lit : string) : pyval := VNum (PFloat lit).

(** The current-conditions response of the first end-to-end scenario. *)
Definition bengaluru : pyval :=
  obj [("name", VStr "Bengaluru");
       ("sys", obj [("country", VStr "IN")]);
       ("weather", VList [obj [("description", VStr "clear sky"); ("icon", VStr "01d")]]);
       ("main", obj [("temp", num "27.5"); ("feels_like", num "29.1");
                     ("humidity", VNum (PInt 70))]);
       ("wind", obj [("speed", num "3.1")])].

Definition forecast_entry (dt temp desc : string) : pyval :=
  obj [("dt_txt", VStr dt); ("main", obj [("temp", num temp)]);
       ("weather", VList [obj [("description", VStr desc)]])].

Definition two_entries : pyval :=
  obj [("list", VList [forecast_entry "2024-05-01 12:00:00" "28.0" "few clouds";
                       forecast_entry "2024-05-01 15:00:00" "29.3" "light rain"])].

Definition bengaluru_net : request → reply :=
  net_of (Reply (json_response 200 bengaluru)) (Reply (json_response 200 two_entries))
         (NoReply "unreachable") (Reply (png_response "01d")).

(** Blank input: two spaces, a tab and a no-break space (U+00A0). *)
Definition blank_input : string :=
  "  " +:+ String (ascii_of_nat 9) (String (ascii_of_nat 194) (String (ascii_of_nat 160) "")).

(** A provider error as OpenWeather sends it. *)
Definition city_not_found (status : Z) : response :=
  json_response status
    (obj [("cod", VStr "404"); ("message", VStr "city not found")]).

Definition atlantis_net (status : Z) : request → reply :=
  net_of (Reply (city_not_found status)) (NoReply "Read timed out")
         (NoReply "unreachable") (NoReply "unreachable").

(** The same current conditions, the forecast request timing out. *)
Definition no_forecast_net : request → reply :=
  net_of (Reply (json_response 200 bengaluru)) (NoReply "Read timed out")
         (NoReply "unreachable") (Reply (png_response "01d")).

(** A response object without the [weather] key. *)
Definition pune_fields : list (string * pyval) :=
  [("name", VStr "Pune");
   ("sys", obj [("country", VStr "IN")]);
   ("main", obj [("temp", num "31.2"); ("feels_like", num "33.0");
                 ("humidity", VNum (PInt 40))]);
   ("wind", obj [("speed", num "2.4")])].

Definition pune_net : request → reply :=
  net_of (Reply (json_response 200 (obj pune_fields)))
         (Reply (json_response 200 two_entries))
         (NoReply "unreachable") (Reply (png_response "02d")).

(** A response object without the [weather] key whose [main] is null. *)
Definition main_null_fields : list (string * pyval) :=
  [("name", VStr "Pune"); ("sys", obj [("country", VStr "IN")]); ("main", VNone)].

Definition main_null_net : request → reply :=
  net_of (Reply (json_response 200 (obj main_null_fields)))
         (Reply (json_response 200 two_entries))
         (NoReply "unreachable") (Reply (png_response "02d")).

(** A response object whose [weather] is the empty list. *)
Definition empty_weather_fields : list (string * pyval) :=
  [("name", VStr "Pune"); ("weather", VList [])].

Definition empty_weather_net : request → reply :=
  net_of (Reply (json_response 200 (obj empty_weather_fields)))
         (Reply (json_response 200 two_entries))
         (NoReply "unreachable") (Reply (png_response "02d")).

(** A forecast whose second entry has an empty [weather] list. *)
Definition second_entry_empty : pyval :=
  obj [("list", VList [forecast_entry "2024-05-01 12:00:00" "28.0" "few clouds";
                       obj [("dt_txt", VStr "2024-05-01 15:00:00");
                            ("weather", VList [])]])].

Definition second_entry_empty_net : request → reply :=
  net_of (Reply (json_response 200 bengaluru))
         (Reply (json_response 200 second_entry_empty))
         (NoReply "unreachable") (Reply (png_response "01d")).

(** Current conditions as the provider reports them for imperial units:
    Fahrenheit and miles per hour. *)
Definition miami : pyval :=
  obj [("name", VStr "Miami");
       ("sys", obj [("country", VStr "US")]);
       ("weather", VList [obj [("description", VStr "clear sky"); ("icon", VStr "01d")]]);
       ("main", obj [("temp", num "81.5"); ("feels_like", num "84.4");
                     ("humidity", VNum (PInt 70))]);
       ("wind", obj [("speed", num "6.9")])].

Definition miami_net : request → reply :=
  net_of (Reply (json_response 200 miami)) (Reply (json_response 200 two_entries))
         (NoReply "unreachable") (Reply (png_response "01d")).

Definition run_get_weather (net : request → reply) (w : world) : result () * world :=
  @on_get_weather ref_builtins "KEY" net w.

Definition run_fetch_and_display (net : request → reply) (q : string) (w : world)
    : result () * world :=
  @fetch_and_display ref_builtins "KEY" net (VStr q) VNone VNone w.

Definition run_fetch_weather (net : request → reply) (q : string) (w : world)
    : result pyval * world :=
  @fetch_weather ref_builtins "KEY" net (VStr q) VNone VNone (unit_var (gui w)) w.

Definition run_display_current (net : request → reply) (data : pyval) (w0 w : world)
    : result () * world :=
  @display_current ref_builtins net (unit_var (gui w0)) data w.

Definition run_fetch_forecast (net : request → reply) (q : string) (w0 w : world)
    : result pyval * world :=
  @fetch_forecast ref_builtins "KEY" net (VStr q) VNone VNone (unit_var (gui w0)) w.

(** ** Predicates used in the statements *)

(** Empty, or whitespace only. *)
Definition blank (s : string) : Prop :=
  Forall (λ ch, is_space ch = true) (chars s).

(** Key [k] is absent from [m] or holds a dict. *)
Definition absent_or_dict (m : gmap string pyval) (k : string) : Prop :=
  match m !! k with
  | None | Some (VDict _) => True
  | Some _ => False
  end.

(** The ways a [fetch_*] call fails: no response (connection error,
    timeout), an error status, a body that is not JSON. *)
Inductive fetch_failure : reply → Prop :=
  | ff_network msg : fetch_failure (NoReply msg)
  | ff_status r : 400 ≤ status_code r < 600 → fetch_failure (Reply r)
  | ff_malformed r b msg : body r = NotJson b msg → fetch_failure (Reply r).

(** The ways the device-location lookup fails: as a fetch does, or the
    decoded body is not an object, or misses a coordinate, or holds one that
    [float] rejects. *)
Inductive location_failure `{Py : Builtins} : reply → Prop :=
  | lf_fetch rp : fetch_failure rp → location_failure rp
  | lf_not_object r v :
      body r = Json v → (∀ m, v ≠ VDict m) → location_failure (Reply r)
  | lf_missing r m k :
      body r = Json (VDict m) → k ∈ ["lat"; "lon"] → m !! k = None →
      location_failure (Reply r)
  | lf_not_number r m k x e :
      body r = Json (VDict m) → k ∈ ["lat"; "lon"] → m !! k = Some x →
      py_float x = Raise e → location_failure (Reply r).

Definition location_request : request :=
  {| req_url := LOCATION_URL; req_params := ∅; req_timeout := 6 |}.

Definition weather_request `{Py : Builtins} (API_KEY : string) (q lat lon : pyval)
    (units : string) : request :=
  {| req_url := WEATHER_URL; req_params := query_params API_KEY q lat lon units;
     req_timeout := 10 |}.

Definition forecast_request `{Py : Builtins} (API_KEY : string) (q lat lon : pyval)
    (units : string) : request :=
  {| req_url := FORECAST_URL; req_params := query_params API_KEY q lat lon units;
     req_timeout := 10 |}.

(** The world after the requests [rqs] were sent and nothing else
    happened. *)
Definition after_sending (rqs : list request) (w : world) : world :=
  {| gui := gui w; modals := modals w; sent := sent w ++ rqs |}.

(** The world after one more dialog. *)
Definition after_modal (k : modal_kind) (t msg : string) (w : world) : world :=
  {| gui := gui w;
     modals := modals w ++ [{| m_kind := k; m_title := t; m_message := VStr msg |}];
     sent := sent w |}.

(** What [fetch_weather] and [fetch_forecast] return or raise, as a
    function of the reply. *)
Definition fetch_result (rp : reply) : result pyval :=
  match rp with
  | NoReply msg => Raise (RequestException msg)
  | Reply r => _ ← raise_for_status r; response_json r
  end.

(** What the [try] of [my_location] returns or raises, as a function of
    the reply. *)
Definition location_result `{Py : Builtins} (rp : reply) : result (pyval * pyval) :=
  data ← fetch_result rp;
  la ← (x ← py_getitem data "lat"; py_float x);
  lo ← (x ← py_getitem data "lon"; py_float x);
  mret (VNum la, VNum lo).

(** The text of the HTTPError that [raise_for_status] raises: the generic
    error string. *)
Definition http_error_text (r : response) : string :=
  pretty (status_code r)
  +:+ (if status_code r <? 500 then " Client Error: " else " Server Error: ")
  +:+ reason r +:+ " for url: " +:+ url r.

(** The text of the "API error" dialog as the specification words it: the
    [message] field of the body when the body is a JSON object that has one,
    the generic error string otherwise. *)
Definition api_error_message (r : response) : pyval :=
  match body r with
  | Json (VDict m) => default (VStr (http_error_text r)) (m !! "message")
  | _ => VStr (http_error_text r)
  end.

Definition icon_request `{Py : Builtins} (icon_code : pyval) : request :=
  {| req_url := ICON_URL icon_code; req_params := ∅; req_timeout := 8 |}.

(** The image the icon [try] ends with, or what it raises, as a function
    of the reply. *)
Definition icon_result (rp : reply) : result image :=
  match rp with
  | NoReply msg => Raise (RequestException msg)
  | Reply r =>
      _ ← raise_for_status r;
      pil_img ← image_open r;
      mret (resize pil_img 100 100)
  end.

(** The text the forecast [try] builds, or what it raises, as a function
    of the reply. *)
Definition forecast_text_result `{Py : Builtins} (rp : reply) (units_label : string)
    : result string :=
  fc ← fetch_result rp;
  items ← (l ← py_get fc "list" (VList []); py_slice_to 5 l);
  forecast_loop items units_label "".

(** The application with the forecast region holding [text], read-only. *)
Definition with_forecast (text : string) (a : app) : app :=
  upd_forecast_text (λ _, {| tw_text := text; tw_normal := false |}) a.

(** The [weather] key is absent, or holds a non-empty list whose first item
    is a dict whose [description], when present, is a str. *)
Definition weather_ok (m : gmap string pyval) : Prop :=
  match m !! "weather" with
  | None => True
  | Some (VList (VDict wm :: _)) =>
      match wm !! "description" with
      | None | Some (VStr _) => True
      | Some _ => False
      end
  | Some _ => False
  end.

(** A current-conditions object that the rendering code accepts. *)
Definition well_formed_current (m : gmap string pyval) : Prop :=
  absent_or_dict m "sys" ∧ absent_or_dict m "main" ∧ absent_or_dict m "wind"
  ∧ weather_ok m.

(** A forecast entry that the loop body accepts. *)
Definition well_formed_entry (it : pyval) : Prop :=
  ∃ m, it = VDict m ∧ absent_or_dict m "main" ∧ weather_ok m.

(** The value under [k2] of the dict under [k1], [dflt] when either is
    missing. *)
Definition field_in (m : gmap string pyval) (k1 k2 : string) (dflt : pyval) : pyval :=
  match m !! k1 with
  | Some (VDict mm) => default dflt (mm !! k2)
  | _ => dflt
  end.

(** The parts of a forecast line, with the defaults of the source. *)
Definition entry_timestamp (it : pyval) : pyval :=
  match it with
  | VDict m => default (VStr "—") (m !! "dt_txt")
  | _ => VStr "—"
  end.

Definition entry_temperature (it : pyval) : pyval :=
  match it with
  | VDict m => field_in m "main" "temp" (VStr "—")
  | _ => VStr "—"
  end.

Definition entry_description (it : pyval) : string :=
  match it with
  | VDict m =>
      match m !! "weather" with
      | Some (VList (VDict wm :: _)) =>
          match wm !! "description" with
          | Some (VStr d) => d
          | _ => ""
          end
      | _ => ""
      end
  | _ => ""
  end.

(** The forecast line as the specification words it:
    [<timestamp> — <temperature><unit-suffix> — <capitalized description>]. *)
Definition entry_line `{Py : Builtins} (units_label : string) (it : pyval) : string :=
  fmt (entry_timestamp it) +:+ " — " +:+ fmt (entry_temperature it) +:+ units_label
  +:+ " — " +:+ title (entry_description it) +:+ nl.

(** The current conditions held by a response object, with the defaults
    of the source. *)
Definition current_of `{Py : Builtins} (m : gmap string pyval) : current_fields :=
  {| f_name := default (VStr "") (m !! "name");
     f_country := field_in m "sys" "country" (VStr "");
     f_weather_desc := title (entry_description (VDict m));
     f_temp := field_in m "main" "temp" VNone;
     f_feels := field_in m "main" "feels_like" VNone;
     f_humidity := field_in m "main" "humidity" VNone;
     f_wind := field_in m "wind" "speed" VNone |}.

(** The last character of [s] is a line break. *)
Definition ends_with_nl (s : string) : bool :=
  match rev (list_ascii_of_string s) with
  | c :: _ => N.eqb (N_of_ascii c) 10
  | [] => false
  end.

(** [text] is made of [n] lines, each ending in a line break. *)
Definition made_of_lines (n : nat) (text : string) : Prop :=
  ∃ lines : list string,
    length lines = n ∧ Forall (λ l, ends_with_nl l = true) lines
    ∧ text = join lines.

(** The application after lines 148-151 wrote the four labels. *)
Definition shown `{Py : Builtins} (f : current_fields) (units_label : string)
    (a : app) : app :=
  set_detail_label
    ("Feels like: " +:+ fmt (f_feels f) +:+ " " +:+ units_label
     +:+ " | Humidity: " +:+ fmt (f_humidity f)
     +:+ "% | Wind: " +:+ fmt (f_wind f) +:+ " m/s")
    (set_temp_label (fmt (f_temp f) +:+ " " +:+ units_label)
       (set_cond_label (f_weather_desc f)
          (set_city_label (fmt (f_name f) +:+ ", " +:+ fmt (f_country f)) a))).

(** ** The session: start-up, the window and the event loop *)

(** Lines 10-13: [env] is what [os.getenv("OPENWEATHER_API_KEY")] returns
    after [load_dotenv()]; the program exits unless it is a non-empty
    str. *)
Inductive startup :=
  | SystemExit (msg : string)
  | Started (API_KEY : string).

Definition load_api_key (env : option string) : startup :=
  match env with
  | Some key =>
      if String.eqb key "" then
        SystemExit "Set OPENWEATHER_API_KEY in environment or .env"
      else Started key
  | None => SystemExit "Set OPENWEATHER_API_KEY in environment or .env"
  end.

(** The values of the two radio buttons (lines 81-82). *)
Inductive unit_choice := Metric | Imperial.

Definition unit_value (c : unit_choice) : string :=
  match c with
  | Metric => "metric"
  | Imperial => "imperial"
  end.

(** What the user can do with the widgets of [create_widgets]: edit the
    entry bound to [city_var], pick a radio button bound to [unit], press
    "Get Weather" or "Use My Location".  A click comes with the network as
    it answers at that moment. *)
Inductive event :=
  | EditCity (text : string)
  | SelectUnit (c : unit_choice)
  | ClickGetWeather (net : request → reply)
  | ClickUseLocation (net : request → reply).

(** One turn of [mainloop]: Tk runs the command bound to the widget; an
    exception the command raises is reported on stderr and the loop goes
    on, with whatever the command had done. *)
Definition handle `{Py : Builtins} (API_KEY : string) (ev : event) (w : world) : world :=
  match ev with
  | EditCity text => with_city text w
  | SelectUnit c => with_unit (unit_value c) w
  | ClickGetWeather net => (on_get_weather API_KEY net w).2
  | ClickUseLocation net => (on_use_location API_KEY net w).2
  end.

Definition mainloop `{Py : Builtins} (API_KEY : string) (events : list event)
    (w : world) : world :=
  foldl (λ w ev, handle API_KEY ev w) w events.

Inductive session :=
  | Exited (msg : string)
  | Window (w : world).

(** The module as a whole: the credential check, [WeatherApp()], then
    [mainloop()] over the user's events. *)
Definition main `{Py : Builtins} (env : option string) (events : list event) : session :=
  match load_api_key env with
  | SystemExit msg => Exited msg
  | Started API_KEY => Window (mainloop API_KEY events initial_world)
  end.

(** ** How a run of [fetch_and_display] can end *)

(** What lines 153-164 do to the application [a], and the request they
    send: nothing, the new 100x100 image in [icon_img] and in the label, or
    the label blanked. *)
Inductive icon_outcome `{Py : Builtins} (a : app) : app → list request → Prop :=
  | io_skip : icon_outcome a a []
  | io_shown icon_code src :
      icon_outcome a
        (set_icon_label (Some (Image src 100 100))
           (set_icon_img (Some (Image src 100 100)) a))
        [icon_request icon_code]
  | io_blank icon_code :
      icon_outcome a (set_icon_label None a) [icon_request icon_code].

(** The three ways: one error dialog; an exception that leaves the
    handler; the display of the fields [f], with the icon step and the
    forecast region rewritten. *)
Inductive fetch_and_display_outcome `{Py : Builtins} (API_KEY : string)
    (q lat lon : pyval) (w : world) : result () * world → Prop :=
  | fd_dialog t msg :
      t ∈ ["API error"; "Network error"] →
      fetch_and_display_outcome API_KEY q lat lon w
        (Ok (),
         {| gui := gui w;
            modals := modals w ++ [{| m_kind := ShowError; m_title := t;
                                      m_message := msg |}];
            sent := sent w ++ [weather_request API_KEY q lat lon (unit_var (gui w))] |})
  | fd_raised e :
      fetch_and_display_outcome API_KEY q lat lon w
        (Raise e,
         after_sending [weather_request API_KEY q lat lon (unit_var (gui w))] w)
  | fd_displayed f a rqs text :
      icon_outcome (shown f (units_label_of (unit_var (gui w))) (gui w)) a rqs →
      fetch_and_display_outcome API_KEY q lat lon w
        (Ok (),
         {| gui := with_forecast text a;
            modals := modals w;
            sent := sent w
                    ++ weather_request API_KEY q lat lon (unit_var (gui w))
                       :: rqs
                    ++ [forecast_request API_KEY q lat lon (unit_var (gui w))] |}).

(** The requests the handlers send: the lookup of the location, an icon,
    and the two provider endpoints by place name or by coordinates, under
    one of the two unit systems. *)
Inductive handler_request `{Py : Builtins} (API_KEY : string) : request → Prop :=
  | hr_location : handler_request API_KEY location_request
  | hr_icon icon_code : handler_request API_KEY (icon_request icon_code)
  | hr_weather_place s c :
      s ≠ "" →
      handler_request API_KEY
        (weather_request API_KEY (VStr s) VNone VNone (unit_value c))
  | hr_forecast_place s c :
      s ≠ "" →
      handler_request API_KEY
        (forecast_request API_KEY (VStr s) VNone VNone (unit_value c))
  | hr_weather_coordinates a b c :
      handler_request API_KEY
        (weather_request API_KEY VNone (VNum (PFloat a)) (VNum (PFloat b))
           (unit_value c))
  | hr_forecast_coordinates a b c :
      handler_request API_KEY
        (forecast_request API_KEY VNone (VNum (PFloat a)) (VNum (PFloat b))
           (unit_value c)).

(** The icon label shows nothing, or a 100x100 image that [icon_img] keeps
    referenced. *)
Definition icon_kept (a : app) : Prop :=
  icon_label a = None
  ∨ ∃ src, icon_label a = Some (Image src 100 100) ∧ icon_img a = icon_label a.

(** How the handlers call [fetch_and_display]: with a non-empty place
    name, or with two floats. *)
Definition place_or_coordinates (q lat lon : pyval) : Prop :=
  (∃ s, s ≠ "" ∧ q = VStr s ∧ lat = VNone ∧ lon = VNone)
  ∨ (∃ a b, q = VNone ∧ lat = VNum (PFloat a) ∧ lon = VNum (PFloat b)).

(** What holds of the world between two events. *)
Definition consistent `{Py : Builtins} (API_KEY : string) (w : world) : Prop :=
  (∃ c, unit_var (gui w) = unit_value c)
  ∧ tw_normal (forecast_text (gui w)) = false
  ∧ icon_kept (gui w)
  ∧ Forall (handler_request API_KEY) (sent w).

(** A decoded forecast body from which lines 170-176 cannot build the
    text: not an object; [list] neither a list nor a str; one of the first
    five entries not well-formed. *)
Inductive unusable_forecast : pyval → Prop :=
  | uf_not_object fc : (∀ fm, fc ≠ VDict fm) → unusable_forecast fc
  | uf_list_shape fm v :
      fm !! "list" = Some v → (∀ l, v ≠ VList l) → (∀ t, v ≠ VStr t) →
      unusable_forecast (VDict fm)
  | uf_entry fm items :
      fm !! "list" = Some (VList items) →
      Exists (λ it, ¬ well_formed_entry it) (take 5 items) →
      unusable_forecast (VDict fm).

(** ** More sample data *)

(** No connection to the provider. *)
Definition offline_net : request → reply :=
  net_of (NoReply "Connection refused") (NoReply "Connection refused")
         (NoReply "Connection refused") (NoReply "Connection refused").

(** A 200 response whose body is an HTML page. *)
Definition html_response (as_request_exception : bool) : response :=
  {| status_code := 200; reason := "OK"; url := "-";
     body := NotJson as_request_exception "Expecting value"; picture := None |}.

Definition html_net (as_request_exception : bool) : request → reply :=
  net_of (Reply (html_response as_request_exception)) (NoReply "unreachable")
         (NoReply "unreachable") (NoReply "unreachable").

(** The geolocation service answers, the longitude as an int. *)
Definition located_net : request → reply :=
  net_of (Reply (json_response 200 bengaluru)) (Reply (json_response 200 two_entries))
         (Reply (json_response 200
                   (obj [("status", VStr "success"); ("lat", num "12.97");
                         ("lon", VNum (PInt 77))])))
         (Reply (png_response "01d")).

(** The provider answers with an empty object. *)
Definition empty_object_net : request → reply :=
  net_of (Reply (json_response 200 (obj []))) (NoReply "unreachable")
         (NoReply "unreachable") (NoReply "unreachable").

(** The forecast answers with an object that has no [list]. *)
Definition no_list_net : request → reply :=
  net_of (Reply (json_response 200 bengaluru))
         (Reply (json_response 200 (obj [("cod", VStr "200")])))
         (NoReply "unreachable") (Reply (png_response "01d")).

(** ** The parameters on the wire *)

Definition is_none (v : pyval) : bool :=
  match v with
  | VNone => true
  | _ => false
  end.

(** What [requests] makes of [params]: a parameter whose value is None is
    left out of the URL.  The other values this program passes are str and
    float, sent as they are. *)
Definition outgoing (params : gmap string pyval) : gmap string pyval :=
  filter (λ kv, is_none kv.2 = false) params.

(** The two locational sets, with the credential and the unit system:
    [appid], [units] and [q]; [appid], [units], [lat] and [lon]. *)
Definition place_params (API_KEY units s : string) : gmap string pyval :=
  <["q" := VStr s]> (<["units" := VStr units]> (<["appid" := VStr API_KEY]> ∅)).

Definition coordinate_params (API_KEY units : string) (a b : pynum)
    : gmap string pyval :=
  <["lon" := VNum b]> (<["lat" := VNum a]>
    (<["units" := VStr units]> (<["appid" := VStr API_KEY]> ∅))).

(** * Properties *)

Section Properties.
Context `{Py : Builtins}.
Variable API_KEY : string.
Variable net : request → reply.

(** *** Input validation *)

Lemma lstrip_chars_blank (l : list string) :
  Forall (λ ch, is_space ch = true) l → lstrip_chars l = [].
Proof.
  induction 1 as [|ch l Hch _ IH]; simpl; [done|].
  by rewrite Hch.
Qed.

Lemma strip_blank (s : string) : blank s → strip s = "".
Proof.
  intros Hs. unfold strip. by rewrite (lstrip_chars_blank _ Hs).
Qed.

(** C4.  When the text input is empty or whitespace only, "get weather"
    sends no request to any endpoint, shows the "Input needed" notice and
    changes no widget. *)
Theorem on_get_weather_blank_input (w : world) :
  blank (city_var (gui w)) →
  on_get_weather API_KEY net w =
    (Ok (), after_modal ShowInfo "Input needed"
              "Enter a city name or click Use My Location." w).
Proof.
  intros Hblank.
  unfold on_get_weather, mbind, M_bind, get_app.
  by rewrite (strip_blank _ Hblank).
Qed.

(** With anything else in the input, the stripped text is the query. *)
Lemma on_get_weather_query (w : world) :
  strip (city_var (gui w)) ≠ "" →
  on_get_weather API_KEY net w =
    fetch_and_display API_KEY net (VStr (strip (city_var (gui w)))) VNone VNone w.
Proof.
  intros Hq. unfold on_get_weather, mbind at 1, M_bind at 1, get_app.
  simpl. by destruct (String.eqb_spec (strip (city_var (gui w))) "").
Qed.

(** *** Query parameters *)

(** The two ways the handlers call: a non-empty place name, or two
    coordinates. *)
Lemma query_params_place (s units : string) :
  s ≠ "" →
  query_params API_KEY (VStr s) VNone VNone units =
    <["q" := VStr s]> (<["units" := VStr units]> (<["appid" := VStr API_KEY]> ∅)).
Proof.
  intros Hs. unfold query_params. simpl.
  by destruct (String.eqb_spec s "").
Qed.

Lemma query_params_coordinates (a b : pynum) (units : string) :
  query_params API_KEY VNone (VNum a) (VNum b) units =
    <["lon" := VNum b]> (<["lat" := VNum a]>
      (<["units" := VStr units]> (<["appid" := VStr API_KEY]> ∅))).
Proof. done. Qed.

(** *** Running a fetch *)

Lemma fetch_weather_run (q lat lon : pyval) (units : string) (w : world) :
  fetch_weather API_KEY net q lat lon units w =
    (fetch_result (net (weather_request API_KEY q lat lon units)),
     after_sending [weather_request API_KEY q lat lon units] w).
Proof.
  unfold fetch_weather, mbind, M_bind, requests_get, lift, weather_request,
    fetch_result.
  destruct (net _) as [msg|r]; simpl; [done|].
  by destruct (raise_for_status r).
Qed.

Lemma fetch_forecast_run (q lat lon : pyval) (units : string) (w : world) :
  fetch_forecast API_KEY net q lat lon units w =
    (fetch_result (net (forecast_request API_KEY q lat lon units)),
     after_sending [forecast_request API_KEY q lat lon units] w).
Proof.
  unfold fetch_forecast, mbind, M_bind, requests_get, lift, forecast_request,
    fetch_result.
  destruct (net _) as [msg|r]; simpl; [done|].
  by destruct (raise_for_status r).
Qed.

Lemma raise_for_status_error (r : response) :
  400 ≤ status_code r < 600 →
  raise_for_status r = Raise (HTTPError (http_error_text r) r).
Proof.
  intros [Hlo Hhi]. unfold raise_for_status, http_error_text.
  destruct (status_code r <? 500) eqn:H5.
  - replace (400 <=? status_code r) with true by (symmetry; apply Z.leb_le; lia).
    done.
  - replace (400 <=? status_code r) with true by (symmetry; apply Z.leb_le; lia).
    replace (500 <=? status_code r) with true
      by (symmetry; apply Z.leb_le; apply Z.ltb_ge in H5; lia).
    replace (status_code r <? 600) with true by (symmetry; apply Z.ltb_lt; lia).
    done.
Qed.

Lemma raise_for_status_ok (r : response) :
  ¬ (400 ≤ status_code r < 600) → raise_for_status r = Ok ().
Proof.
  intros Hs. unfold raise_for_status.
  destruct (400 <=? status_code r) eqn:H4, (status_code r <? 500) eqn:H5,
    (500 <=? status_code r) eqn:H6, (status_code r <? 600) eqn:H7;
    simpl; try done; exfalso; apply Hs; lia.
Qed.

Lemma fetch_failure_raises (rp : reply) :
  fetch_failure rp → ∃ e, fetch_result rp = Raise e.
Proof.
  destruct 1 as [msg|r Hs|r b msg Hb]; simpl.
  - eauto.
  - rewrite (raise_for_status_error r Hs). simpl. eauto.
  - destruct (raise_for_status r); simpl; [|eauto].
    unfold response_json. rewrite Hb. destruct b; eauto.
Qed.

(** *** Device location *)

Lemma my_location_try_run (w : world) :
  my_location_try net w =
    (location_result (net location_request), after_sending [location_request] w).
Proof.
  unfold my_location_try, location_result, mbind, M_bind, requests_get, lift,
    fetch_result.
  change {| req_url := LOCATION_URL; req_params := ∅; req_timeout := 6 |}
    with location_request.
  destruct (net location_request) as [msg|r]; simpl; [done|].
  destruct (raise_for_status r); simpl; [|done].
  destruct (response_json r) as [data|]; simpl; [|done].
  destruct (py_getitem data "lat") as [x|]; simpl; [|done].
  destruct (py_float x); simpl; [|done].
  destruct (py_getitem data "lon") as [y|]; simpl; [|done].
  by destruct (py_float y).
Qed.

(** [my_location] never raises: it returns a pair and only sends the one
    request. *)
Lemma my_location_run (w : world) :
  my_location net w =
    (Ok (match location_result (net location_request) with
         | Ok loc => loc
         | Raise _ => (VNone, VNone)
         end),
     after_sending [location_request] w).
Proof.
  unfold my_location, try_except, try_else.
  rewrite my_location_try_run.
  by destruct (location_result _).
Qed.

Lemma location_failure_raises (rp : reply) :
  location_failure rp → ∃ e, location_result rp = Raise e.
Proof.
  unfold location_result.
  destruct 1 as [rp Hf|r v Hb Hv|r m k Hb Hk Hm|r m k x e Hb Hk Hm Hx].
  - destruct (fetch_failure_raises rp Hf) as [e ->]. simpl. eauto.
  - simpl. destruct (raise_for_status r); simpl; [|eauto].
    unfold response_json. rewrite Hb. simpl.
    destruct v; simpl; eauto. by destruct (Hv m).
  - simpl. destruct (raise_for_status r); simpl; [|eauto].
    unfold response_json. rewrite Hb. simpl.
    destruct (m !! "lat") as [x|] eqn:Hlat; simpl; [|eauto].
    destruct (py_float x); simpl; [|eauto].
    destruct (m !! "lon") as [y|] eqn:Hlon; simpl; [|eauto].
    apply list_elem_of_In in Hk. simpl in Hk.
    destruct Hk as [<-|[<-|[]]]; congruence.
  - simpl. destruct (raise_for_status r); simpl; [|eauto].
    unfold response_json. rewrite Hb. simpl.
    destruct (m !! "lat") as [x'|] eqn:Hlat; simpl; [|eauto].
    destruct (py_float x') eqn:Hx'; simpl; [|eauto].
    destruct (m !! "lon") as [y|] eqn:Hlon; simpl; [|eauto].
    destruct (py_float y) eqn:Hy; simpl; [|eauto].
    apply list_elem_of_In in Hk. simpl in Hk.
    destruct Hk as [<-|[<-|[]]]; congruence.
Qed.

(** The list of failures is exhaustive: a fetch that raises has one of
    them. *)
Lemma fetch_raises_failure (rp : reply) (e : exn) :
  fetch_result rp = Raise e → fetch_failure rp.
Proof.
  destruct rp as [msg|r]; simpl; [constructor|].
  destruct (decide (400 ≤ status_code r < 600)) as [Hs|Hs]; [by constructor|].
  rewrite (raise_for_status_ok r Hs). simpl. unfold response_json.
  destruct (body r) as [v|b msg] eqn:Hb; [done|]. intros _. by econstructor.
Qed.

Lemma location_raises_failure (rp : reply) (e : exn) :
  location_result rp = Raise e → location_failure rp.
Proof.
  unfold location_result.
  destruct (fetch_result rp) as [data|e'] eqn:Hfetch; simpl.
  - destruct rp as [msg|r]; [done|]. simpl in Hfetch.
    destruct (raise_for_status r); [|done]. simpl in Hfetch.
    unfold response_json in Hfetch.
    destruct (body r) as [v|[] msg] eqn:Hb; try done.
    injection Hfetch as ->.
    destruct data as [| | | | |m];
      try (intros _; by eapply lf_not_object). simpl.
    destruct (m !! "lat") as [x|] eqn:Hlat; simpl;
      [|intros _; eapply (lf_missing r m "lat"); [done|set_solver|done]].
    destruct (py_float x) as [la|ex] eqn:Hx; simpl;
      [|intros _; eapply (lf_not_number r m "lat"); [done|set_solver|done..]].
    destruct (m !! "lon") as [y|] eqn:Hlon; simpl;
      [|intros _; eapply (lf_missing r m "lon"); [done|set_solver|done]].
    destruct (py_float y) as [lo|ey] eqn:Hy; simpl; [done|].
    intros _. eapply (lf_not_number r m "lon"); [done|set_solver|done..].
  - intros _. apply lf_fetch. by eapply fetch_raises_failure.
Qed.

(** A lookup that succeeds returns two floats, and the handler goes on to
    fetch by coordinates. *)
Lemma location_result_shape (rp : reply) (loc : pyval * pyval) :
  location_result rp = Ok loc →
  ∃ a b, loc = (VNum (PFloat a), VNum (PFloat b)).
Proof.
  unfold location_result.
  destruct (fetch_result rp) as [data|]; simpl; [|done].
  destruct (py_getitem data "lat") as [x|]; simpl; [|done].
  destruct (py_float x) as [la|] eqn:Hx; simpl; [|done].
  destruct (py_getitem data "lon") as [y|]; simpl; [|done].
  destruct (py_float y) as [lo|] eqn:Hy; simpl; [|done].
  intros [= <-].
  assert (Hfloat : ∀ v n, py_float v = Ok n → ∃ lit, n = PFloat lit).
  { intros v n. destruct v as [|b|[z|lit]|t| |]; simpl; try done.
    - intros [= <-]. eauto.
    - destruct (int_to_float z); [|done]. intros [= <-]. eauto.
    - intros [= <-]. eauto.
    - destruct (str_to_float t); [|done]. intros [= <-]. eauto. }
  destruct (Hfloat _ _ Hx) as [a ->], (Hfloat _ _ Hy) as [b ->]. eauto.
Qed.

Lemma on_use_location_success (w : world) (lat lon : pyval) :
  location_result (net location_request) = Ok (lat, lon) →
  on_use_location API_KEY net w =
    fetch_and_display API_KEY net VNone lat lon (after_sending [location_request] w).
Proof.
  intros Hloc. unfold on_use_location, mbind, M_bind.
  rewrite my_location_run, Hloc.
  by destruct (location_result_shape _ _ Hloc) as (a & b & [= -> ->]).
Qed.

(** C9.  When the device-location lookup fails (no response, error
    status, body that is not JSON or not an object, coordinate missing or
    not a number), [my_location] raises nothing and returns (None, None),
    and "use my location" shows the "Location failed" error dialog, sends
    no request besides the lookup itself, and changes no widget. *)
Theorem on_use_location_failure (w : world) :
  location_failure (net location_request) →
  my_location net w = (Ok (VNone, VNone), after_sending [location_request] w)
  ∧ on_use_location API_KEY net w =
      (Ok (), after_modal ShowError "Location failed"
                "Could not detect location via IP."
                (after_sending [location_request] w)).
Proof.
  intros Hfail.
  destruct (location_failure_raises _ Hfail) as [e He].
  assert (Hloc : my_location net w
                 = (Ok (VNone, VNone), after_sending [location_request] w))
    by (by rewrite my_location_run, He).
  split; [done|].
  unfold on_use_location, mbind, M_bind. by rewrite Hloc.
Qed.
(** *** Running the phases of [fetch_and_display] *)

Lemma string_app_nil_r (s : string) : s +:+ "" = s.
Proof.
  induction s as [|c s IH]; [done|].
  change (String c (s +:+ "") = String c s). by rewrite IH.
Qed.

Lemma string_app_assoc (a b c : string) : (a +:+ b) +:+ c = a +:+ (b +:+ c).
Proof.
  induction a as [|x a IH]; [done|].
  change (String x ((a +:+ b) +:+ c) = String x (a +:+ (b +:+ c))).
  by rewrite IH.
Qed.

Lemma set_forecast_text_run (text : string) (w : world) :
  set_forecast_text text w =
    (Ok (), {| gui := with_forecast text (gui w); modals := modals w;
               sent := sent w |}).
Proof.
  unfold set_forecast_text, with_forecast, mbind, M_bind, modify_app,
    upd_forecast_text, tw_configure, tw_delete_all, tw_insert_start.
  simpl. by rewrite string_app_nil_r.
Qed.

Lemma forecast_try_run (q lat lon : pyval) (units units_label : string) (w : world) :
  forecast_try API_KEY net q lat lon units units_label w =
    match forecast_text_result
            (net (forecast_request API_KEY q lat lon units)) units_label with
    | Ok text =>
        (Ok (), {| gui := with_forecast text (gui w); modals := modals w;
                   sent := sent w ++ [forecast_request API_KEY q lat lon units] |})
    | Raise e =>
        (Raise e, after_sending [forecast_request API_KEY q lat lon units] w)
    end.
Proof.
  unfold forecast_try, forecast_text_result.
  unfold mbind at 1. unfold M_bind at 1. rewrite fetch_forecast_run.
  destruct (fetch_result _) as [fc|e]; simpl; [|done].
  unfold mbind at 1. unfold M_bind at 1. unfold lift at 1.
  destruct (py_get fc "list" (VList [])) as [l|e]; simpl; [|done].
  destruct (py_slice_to 5 l) as [items|e]; simpl; [|done].
  unfold mbind at 1. unfold M_bind at 1. unfold lift at 1.
  destruct (forecast_loop items units_label "") as [text|e]; simpl; [|done].
  by rewrite set_forecast_text_run.
Qed.

(** The forecast step never raises, shows no dialog, sends the one
    forecast request and writes nothing but the forecast region. *)
Lemma show_forecast_run (q lat lon : pyval) (units units_label : string) (w : world) :
  show_forecast API_KEY net q lat lon units units_label w =
    (Ok (),
     {| gui := with_forecast
                 match forecast_text_result
                         (net (forecast_request API_KEY q lat lon units))
                         units_label with
                 | Ok text => text
                 | Raise _ => NO_FORECAST
                 end (gui w);
        modals := modals w;
        sent := sent w ++ [forecast_request API_KEY q lat lon units] |}).
Proof.
  unfold show_forecast, try_except, try_else. rewrite forecast_try_run.
  destruct (forecast_text_result _ _); [done|].
  by rewrite set_forecast_text_run.
Qed.

Lemma show_icon_skip (icon_code : pyval) (w : world) :
  truthy icon_code = false → show_icon net icon_code w = (Ok (), w).
Proof. intros Hic. unfold show_icon. by rewrite Hic. Qed.

Lemma show_icon_fetch (icon_code : pyval) (w : world) :
  truthy icon_code = true →
  show_icon net icon_code w =
    (Ok (),
     {| gui := match icon_result (net (icon_request icon_code)) with
               | Ok photo => set_icon_label (Some photo)
                               (set_icon_img (Some photo) (gui w))
               | Raise _ => set_icon_label None (gui w)
               end;
        modals := modals w;
        sent := sent w ++ [icon_request icon_code] |}).
Proof.
  intros Hic. unfold show_icon. rewrite Hic.
  unfold try_except, try_else, icon_try, icon_result, mbind, M_bind,
    requests_get, lift, modify_app.
  change {| req_url := ICON_URL icon_code; req_params := ∅; req_timeout := 8 |}
    with (icon_request icon_code).
  destruct (net (icon_request icon_code)) as [msg|r]; simpl; [done|].
  destruct (raise_for_status r); simpl; [|done].
  by destruct (image_open r).
Qed.

Lemma show_current_run (f : current_fields) (units_label : string) (w : world) :
  show_current f units_label w =
    (Ok (), {| gui := shown f units_label (gui w); modals := modals w;
               sent := sent w |}).
Proof. done. Qed.

Lemma fetch_and_display_run (q lat lon : pyval) (w : world) :
  fetch_and_display API_KEY net q lat lon w =
    let rq := weather_request API_KEY q lat lon (unit_var (gui w)) in
    match fetch_result (net rq) with
    | Ok data =>
        display API_KEY net q lat lon (unit_var (gui w)) data (after_sending [rq] w)
    | Raise e => on_fetch_error e (after_sending [rq] w)
    end.
Proof.
  unfold fetch_and_display, mbind at 1, M_bind at 1, get_app, try_else.
  rewrite fetch_weather_run. by destruct (fetch_result _).
Qed.
Lemma display_current_run (units : string) (data : pyval) (w : world) :
  display_current net units data w =
    match read_current data with
    | Raise e => (Raise e, w)
    | Ok f =>
        let w1 := {| gui := shown f (units_label_of units) (gui w);
                     modals := modals w; sent := sent w |} in
        match read_icon_code data with
        | Raise e => (Raise e, w1)
        | Ok icon_code => show_icon net icon_code w1
        end
    end.
Proof.
  unfold display_current, mbind at 1, M_bind at 1, lift at 1.
  destruct (read_current data) as [f|e]; [|done].
  unfold mbind at 1, M_bind at 1. rewrite show_current_run.
  unfold mbind at 1, M_bind at 1, lift at 1.
  by destruct (read_icon_code data).
Qed.

Lemma show_icon_frame (icon_code : pyval) (w : world) :
  ∃ w', show_icon net icon_code w = (Ok (), w')
        ∧ modals w' = modals w
        ∧ city_label (gui w') = city_label (gui w)
        ∧ cond_label (gui w') = cond_label (gui w)
        ∧ temp_label (gui w') = temp_label (gui w)
        ∧ detail_label (gui w') = detail_label (gui w)
        ∧ forecast_text (gui w') = forecast_text (gui w).
Proof.
  destruct (truthy icon_code) eqn:Hic.
  - rewrite (show_icon_fetch _ _ Hic). eexists. split; [done|].
    simpl. by destruct (icon_result _).
  - rewrite (show_icon_skip _ _ Hic). by eexists.
Qed.

Lemma display_current_modals (units : string) (data : pyval) (w w' : world)
    (r : result ()) :
  display_current net units data w = (r, w') → modals w' = modals w.
Proof.
  rewrite display_current_run.
  destruct (read_current data) as [f|e]; [|by intros [= _ <-]].
  cbv zeta. destruct (read_icon_code data) as [ic|e]; [|by intros [= _ <-]].
  destruct (show_icon_frame ic {| gui := shown f (units_label_of units) (gui w);
                                  modals := modals w; sent := sent w |})
    as (w2 & -> & Hm & _).
  by intros [= _ <-].
Qed.

(** *** Forecast failure *)

(** C2.  In a run of [fetch_and_display] where the current-conditions
    fetch returns [data], the current conditions are displayed (state
    [w2]) and [fetch_forecast] then raises, whatever the exception: the
    handler completes, the city, condition, temperature and detail labels
    and the icon are those of [w2], the forecast region holds exactly
    "No forecast available.", and no dialog is shown. *)
Theorem forecast_failure_is_isolated (q lat lon data : pyval) (w w1 w2 w3 : world)
    (e : exn) :
  fetch_weather API_KEY net q lat lon (unit_var (gui w)) w = (Ok data, w1) →
  display_current net (unit_var (gui w)) data w1 = (Ok (), w2) →
  fetch_forecast API_KEY net q lat lon (unit_var (gui w)) w2 = (Raise e, w3) →
  ∃ w', fetch_and_display API_KEY net q lat lon w = (Ok (), w')
        ∧ city_label (gui w') = city_label (gui w2)
        ∧ cond_label (gui w') = cond_label (gui w2)
        ∧ temp_label (gui w') = temp_label (gui w2)
        ∧ detail_label (gui w') = detail_label (gui w2)
        ∧ icon_label (gui w') = icon_label (gui w2)
        ∧ forecast_text (gui w') = {| tw_text := NO_FORECAST; tw_normal := false |}
        ∧ modals w' = modals w
        ∧ sent w' = sent w3.
Proof.
  intros Hweather Hcurrent Hforecast.
  assert (Hm2 : modals w2 = modals w).
  { rewrite (display_current_modals _ _ _ _ _ Hcurrent).
    rewrite fetch_weather_run in Hweather. by injection Hweather as _ <-. }
  rewrite fetch_forecast_run in Hforecast.
  injection Hforecast as Hres <-.
  eexists. split.
  - unfold fetch_and_display, mbind at 1, M_bind at 1, get_app, try_else.
    rewrite Hweather. unfold display, mbind at 1, M_bind at 1.
    rewrite Hcurrent, show_forecast_run.
    unfold forecast_text_result. by rewrite Hres.
  - by rewrite <- Hm2.
Qed.

(** *** Provider errors *)

Lemma error_message_read (r : response) (text : string) :
  match (d ← response_json r; py_get d "message" (VStr text)) with
  | Ok v => v
  | Raise _ => VStr text
  end
  = match body r with
    | Json (VDict m) => default (VStr text) (m !! "message")
    | _ => VStr text
    end.
Proof.
  unfold response_json.
  destruct (body r) as [v|b msg]; simpl.
  - by destruct v.
  - by destruct b.
Qed.

(** C3 (amended).  When the current-conditions request gets a response
    with a status from 400 to 599, [fetch_and_display] shows one "API
    error" dialog, whose text is the [message] field of the body when the
    body is a JSON object that has one and the text of the HTTPError
    otherwise, changes no widget, sends no further request and
    returns. *)
Theorem api_error_notice (q lat lon : pyval) (w : world) (r : response) :
  net (weather_request API_KEY q lat lon (unit_var (gui w))) = Reply r →
  400 ≤ status_code r < 600 →
  fetch_and_display API_KEY net q lat lon w =
    (Ok (),
     {| gui := gui w;
        modals := modals w ++ [{| m_kind := ShowError; m_title := "API error";
                                  m_message := api_error_message r |}];
        sent := sent w ++ [weather_request API_KEY q lat lon (unit_var (gui w))] |}).
Proof.
  intros Hnet Hstatus.
  rewrite fetch_and_display_run. cbv zeta. rewrite Hnet. simpl.
  rewrite (raise_for_status_error r Hstatus). simpl.
  unfold showerror, show. simpl.
  by rewrite error_message_read.
Qed.

(** *** Which responses the rendering code accepts *)

Lemma get_in_wf (m : gmap string pyval) (k1 k2 : string) (dflt : pyval) :
  absent_or_dict m k1 → get_in (VDict m) k1 k2 dflt = Ok (field_in m k1 k2 dflt).
Proof.
  unfold absent_or_dict, get_in, field_in. simpl.
  by destruct (m !! k1) as [[]|].
Qed.

Lemma get_in_inv (m : gmap string pyval) (k1 k2 : string) (dflt v : pyval) :
  get_in (VDict m) k1 k2 dflt = Ok v → absent_or_dict m k1.
Proof.
  unfold absent_or_dict, get_in. simpl.
  by destruct (m !! k1) as [[]|].
Qed.

Lemma get_in_not_dict (k1 k2 : string) (dflt : pyval) (m : gmap string pyval) :
  ¬ absent_or_dict m k1 → get_in (VDict m) k1 k2 dflt = Raise AttributeError.
Proof.
  unfold absent_or_dict, get_in. simpl.
  by destruct (m !! k1) as [[]|].
Qed.

Lemma description_title_wf (m : gmap string pyval) :
  weather_ok m →
  description_title (VDict m) = Ok (title (entry_description (VDict m))).
Proof.
  unfold weather_ok, description_title, first_weather, entry_description. simpl.
  destruct (m !! "weather") as [[| | | |[|[| | | | |wm] l]|]|]; simpl; try done.
  by destruct (wm !! "description") as [[]|].
Qed.

Lemma description_title_inv (m : gmap string pyval) (d : string) :
  description_title (VDict m) = Ok d → weather_ok m.
Proof.
  unfold weather_ok, description_title, first_weather. simpl.
  destruct (m !! "weather") as [[| | |s|[|[| | | | |wm] l]|]|]; simpl; try done.
  - by destruct (chars s).
  - by destruct (wm !! "description") as [[]|].
Qed.

Lemma description_title_empty_list (m : gmap string pyval) :
  m !! "weather" = Some (VList []) →
  description_title (VDict m) = Raise IndexError.
Proof.
  intros Hw. unfold description_title, first_weather. simpl. by rewrite Hw.
Qed.

Lemma weather_ok_shape (m : gmap string pyval) :
  weather_ok m →
  m !! "weather" = None ∨ ∃ x xs, m !! "weather" = Some (VList (x :: xs)).
Proof.
  unfold weather_ok.
  destruct (m !! "weather") as [[| | | |[|x xs]|]|]; try done; eauto.
Qed.

Lemma read_current_wf (m : gmap string pyval) :
  well_formed_current m → read_current (VDict m) = Ok (current_of m).
Proof.
  intros (Hsys & Hmain & Hwind & Hweather). unfold read_current.
  rewrite !get_in_wf, description_title_wf by done. done.
Qed.

Lemma read_current_inv (data : pyval) (f : current_fields) :
  read_current data = Ok f → ∃ m, data = VDict m ∧ well_formed_current m.
Proof.
  unfold read_current. intros Hf.
  destruct data as [| | | | |m]; try done.
  exists m. split; [done|]. simpl in Hf.
  destruct (get_in (VDict m) "sys" "country" (VStr "")) eqn:Hsys; [|done].
  simpl in Hf.
  destruct (description_title (VDict m)) eqn:Hdesc; [|done]. simpl in Hf.
  destruct (get_in (VDict m) "main" "temp" VNone) eqn:Hmain; [|done].
  simpl in Hf.
  destruct (get_in (VDict m) "main" "feels_like" VNone); [|done]. simpl in Hf.
  destruct (get_in (VDict m) "main" "humidity" VNone); [|done]. simpl in Hf.
  destruct (get_in (VDict m) "wind" "speed" VNone) eqn:Hwind; [|done].
  split_and!; eauto using get_in_inv, description_title_inv.
Qed.

Lemma read_icon_code_wf (m : gmap string pyval) :
  weather_ok m → ∃ icon_code, read_icon_code (VDict m) = Ok icon_code.
Proof.
  unfold weather_ok, read_icon_code, first_weather. simpl.
  destruct (m !! "weather") as [[| | | |[|[| | | | |wm] l]|]|]; simpl;
    try done; eauto.
Qed.

Lemma read_icon_code_absent (m : gmap string pyval) :
  m !! "weather" = None → read_icon_code (VDict m) = Ok VNone.
Proof.
  intros Hw. unfold read_icon_code, first_weather. simpl. rewrite Hw. simpl.
  by rewrite lookup_empty.
Qed.

Lemma forecast_line_wf (it : pyval) (units_label : string) :
  well_formed_entry it →
  forecast_line it units_label = Ok (entry_line units_label it).
Proof.
  intros (m & -> & Hmain & Hweather). unfold forecast_line, entry_line.
  rewrite get_in_wf, description_title_wf by done. done.
Qed.

Lemma forecast_line_inv (it : pyval) (units_label line : string) :
  forecast_line it units_label = Ok line → well_formed_entry it.
Proof.
  unfold forecast_line. intros Hline.
  destruct it as [| | | | |m]; try done.
  exists m. split; [done|]. simpl in Hline.
  destruct (get_in (VDict m) "main" "temp" (VStr "—")) eqn:Hmain; [|done].
  simpl in Hline.
  destruct (description_title (VDict m)) eqn:Hdesc; [|done].
  eauto using get_in_inv, description_title_inv.
Qed.

Lemma forecast_loop_wf (items : list pyval) (units_label text : string) :
  Forall well_formed_entry items →
  forecast_loop items units_label text
  = Ok (text +:+ join (entry_line units_label <$> items)).
Proof.
  intros Hitems. revert text.
  induction Hitems as [|it items Hit _ IH]; intros text; simpl.
  - by rewrite string_app_nil_r.
  - rewrite (forecast_line_wf _ _ Hit). simpl.
    by rewrite IH, string_app_assoc.
Qed.
Lemma fetch_and_display_ok_run (q lat lon data : pyval) (w w1 : world) :
  fetch_weather API_KEY net q lat lon (unit_var (gui w)) w = (Ok data, w1) →
  fetch_and_display API_KEY net q lat lon w =
    display API_KEY net q lat lon (unit_var (gui w)) data w1.
Proof.
  intros Hweather.
  unfold fetch_and_display, mbind at 1, M_bind at 1, get_app, try_else.
  by rewrite Hweather.
Qed.

Lemma display_raises (q lat lon data : pyval) (units : string) (w : world) (e : exn) :
  read_current data = Raise e →
  display API_KEY net q lat lon units data w = (Raise e, w).
Proof.
  intros He. unfold display, mbind at 1, M_bind at 1.
  by rewrite display_current_run, He.
Qed.

Lemma display_ok_inv (q lat lon data : pyval) (units : string) (w w' : world) :
  display API_KEY net q lat lon units data w = (Ok (), w') →
  ∃ f, read_current data = Ok f.
Proof.
  unfold display, mbind at 1, M_bind at 1. rewrite display_current_run.
  destruct (read_current data) as [f|e]; [eauto|done].
Qed.

(** *** Responses without a [weather] key *)

(** C1 (amended).  When the current-conditions response is a JSON object
    without the [weather] key, and its [sys], [main] and [wind] fields,
    where present, are objects: the icon identifier reads as None, the
    handler completes without raising, the condition label is the empty
    string, no icon is requested (the weather and forecast requests are
    the only ones sent), the icon label is not touched and no dialog is
    shown. *)
Theorem missing_weather_renders_empty (q lat lon : pyval) (m : gmap string pyval)
    (w w1 : world) :
  fetch_weather API_KEY net q lat lon (unit_var (gui w)) w = (Ok (VDict m), w1) →
  m !! "weather" = None →
  absent_or_dict m "sys" → absent_or_dict m "main" → absent_or_dict m "wind" →
  read_icon_code (VDict m) = Ok VNone
  ∧ ∃ w', fetch_and_display API_KEY net q lat lon w = (Ok (), w')
        ∧ cond_label (gui w') = ""
        ∧ icon_label (gui w') = icon_label (gui w)
        ∧ modals w' = modals w
        ∧ sent w' =
            (sent w ++ [weather_request API_KEY q lat lon (unit_var (gui w));
                        forecast_request API_KEY q lat lon (unit_var (gui w))])%list.
Proof.
  intros Hweather Hw Hsys Hmain Hwind.
  assert (Hok : weather_ok m) by (unfold weather_ok; by rewrite Hw).
  split; [by apply read_icon_code_absent|].
  rewrite (fetch_and_display_ok_run _ _ _ _ _ _ Hweather).
  rewrite fetch_weather_run in Hweather. injection Hweather as _ <-.
  unfold display, mbind at 1, M_bind at 1.
  rewrite display_current_run, read_current_wf by done. cbv zeta.
  rewrite (read_icon_code_absent _ Hw), show_icon_skip by done.
  rewrite show_forecast_run. eexists. split; [done|]. simpl.
  split_and!; try done.
  - unfold entry_description. rewrite Hw. apply title_empty.
  - by rewrite <- app_assoc.
Qed.

(** *** The empty [weather] list *)

Lemma read_current_empty_weather (m : gmap string pyval) :
  m !! "weather" = Some (VList []) →
  ∃ e, read_current (VDict m) = Raise e
       ∧ (absent_or_dict m "sys" → e = IndexError).
Proof.
  intros Hw. unfold read_current. simpl.
  destruct (get_in (VDict m) "sys" "country" (VStr "")) as [c|e] eqn:Hsys; simpl.
  - rewrite (description_title_empty_list _ Hw). simpl. eauto.
  - exists e. split; [done|]. intros Hok.
    by rewrite (get_in_wf _ _ _ _ Hok) in Hsys.
Qed.

Lemma forecast_line_empty_weather (m : gmap string pyval) (units_label : string) :
  m !! "weather" = Some (VList []) →
  ∃ e, forecast_line (VDict m) units_label = Raise e
       ∧ (absent_or_dict m "main" → e = IndexError).
Proof.
  intros Hw. unfold forecast_line. simpl.
  destruct (get_in (VDict m) "main" "temp" (VStr "—")) as [c|e] eqn:Hmain; simpl.
  - rewrite (description_title_empty_list _ Hw). simpl. eauto.
  - exists e. split; [done|]. intros Hok.
    by rewrite (get_in_wf _ _ _ _ Hok) in Hmain.
Qed.

(** C10.  For a current-conditions response object [m]: if [weather] is
    the empty list, [fetch_and_display] raises, and nothing catches it
    (IndexError, from the index access, when [sys] does not fail first);
    if [fetch_and_display] completes, [weather] is absent or a non-empty
    list.  The loop body of the forecast has the same boundary on each
    entry: an empty [weather] list makes it raise (IndexError when [main]
    does not fail first), and when it yields a line the entry's [weather]
    is absent or a non-empty list. *)
Theorem empty_weather_list_raises (q lat lon : pyval) (m : gmap string pyval)
    (w w1 : world) :
  fetch_weather API_KEY net q lat lon (unit_var (gui w)) w = (Ok (VDict m), w1) →
  (m !! "weather" = Some (VList []) →
     ∃ e, fetch_and_display API_KEY net q lat lon w = (Raise e, w1)
          ∧ (absent_or_dict m "sys" → e = IndexError))
  ∧ ((∃ w', fetch_and_display API_KEY net q lat lon w = (Ok (), w')) →
     m !! "weather" = None ∨ ∃ x xs, m !! "weather" = Some (VList (x :: xs)))
  ∧ (∀ (im : gmap string pyval) (units_label : string),
       im !! "weather" = Some (VList []) →
       ∃ e, forecast_line (VDict im) units_label = Raise e
            ∧ (absent_or_dict im "main" → e = IndexError))
  ∧ (∀ (it : pyval) (units_label line : string),
       forecast_line it units_label = Ok line →
       ∃ im, it = VDict im
             ∧ (im !! "weather" = None
                ∨ ∃ x xs, im !! "weather" = Some (VList (x :: xs)))).
Proof.
  intros Hweather.
  rewrite (fetch_and_display_ok_run _ _ _ _ _ _ Hweather).
  split_and!.
  - intros Hw. destruct (read_current_empty_weather _ Hw) as (e & He & Hidx).
    exists e. split; [|done]. by apply display_raises.
  - intros [w' Hrun]. apply display_ok_inv in Hrun as [f Hf].
    apply read_current_inv in Hf as (m' & [= <-] & _ & _ & _ & Hok).
    by apply weather_ok_shape.
  - intros im units_label Hw. by apply forecast_line_empty_weather.
  - intros it units_label line Hline.
    apply forecast_line_inv in Hline as (im & -> & _ & Hok).
    exists im. split; [done|]. by apply weather_ok_shape.
Qed.
(** *** Forecast lines *)

Lemma list_ascii_app (a b : string) :
  list_ascii_of_string (a +:+ b)
  = (list_ascii_of_string a ++ list_ascii_of_string b)%list.
Proof.
  induction a as [|c a IH]; [done|].
  change (c :: list_ascii_of_string (a +:+ b)
          = c :: (list_ascii_of_string a ++ list_ascii_of_string b)%list).
  by rewrite IH.
Qed.

Lemma ends_with_nl_app (a b : string) :
  ends_with_nl b = true → ends_with_nl (a +:+ b) = true.
Proof.
  unfold ends_with_nl. rewrite list_ascii_app, rev_app_distr.
  by destruct (rev (list_ascii_of_string b)).
Qed.

Lemma entry_line_ends (units_label : string) (it : pyval) :
  ends_with_nl (entry_line units_label it) = true.
Proof. unfold entry_line. by do 6 apply ends_with_nl_app. Qed.

Lemma made_of_entry_lines (units_label : string) (items : list pyval) :
  made_of_lines (length items) (join (entry_line units_label <$> items)).
Proof.
  exists (entry_line units_label <$> items). split_and!; [|  |done].
  - by rewrite length_fmap.
  - apply Forall_fmap, Forall_forall. intros it _. apply entry_line_ends.
Qed.

(** C5 (amended).  In a run of [fetch_and_display] where the current
    conditions are displayed (state [w2]) and [fetch_forecast] returns an
    object whose [list] holds [items], the first five of which are
    well-formed entries (objects whose [main], where present, is an object
    and whose [weather], where present, is a non-empty list starting with
    an object whose [description], where present, is a str): the forecast
    region holds one line per entry among the first five, in their order,
    each [<timestamp> — <temperature><unit-suffix> — <capitalized
    description>] and a line break; that is min(n, 5) lines, and the empty
    text when there is no entry.  No dialog is shown. *)
Theorem forecast_lines_rendered (q lat lon data : pyval) (fm : gmap string pyval)
    (items : list pyval) (w w1 w2 w3 : world) :
  fetch_weather API_KEY net q lat lon (unit_var (gui w)) w = (Ok data, w1) →
  display_current net (unit_var (gui w)) data w1 = (Ok (), w2) →
  fetch_forecast API_KEY net q lat lon (unit_var (gui w)) w2 = (Ok (VDict fm), w3) →
  fm !! "list" = Some (VList items) →
  Forall well_formed_entry (take 5 items) →
  let lines := entry_line (units_label_of (unit_var (gui w))) <$> take 5 items in
  fetch_and_display API_KEY net q lat lon w =
    (Ok (), {| gui := with_forecast (join lines) (gui w2); modals := modals w2;
               sent := sent w3 |})
  ∧ length lines = Nat.min (length items) 5
  ∧ made_of_lines (Nat.min (length items) 5) (join lines)
  ∧ (items = [] → join lines = "").
Proof.
  intros Hweather Hcurrent Hforecast Hlist Hitems lines.
  assert (Hlen : length (take 5 items) = Nat.min (length items) 5)
    by (rewrite length_take; lia).
  split_and!.
  - rewrite (fetch_and_display_ok_run _ _ _ _ _ _ Hweather).
    unfold display, mbind at 1, M_bind at 1. rewrite Hcurrent.
    rewrite fetch_forecast_run in Hforecast. injection Hforecast as Hres <-.
    rewrite show_forecast_run. unfold forecast_text_result. rewrite Hres.
    simpl. rewrite Hlist. simpl.
    by rewrite (forecast_loop_wf _ _ _ Hitems).
  - unfold lines. by rewrite length_fmap.
  - rewrite <- Hlen. apply made_of_entry_lines.
  - by intros ->.
Qed.

(** *** Unit suffixes and the icon *)

Lemma units_label_metric : units_label_of "metric" = "°C".
Proof. done. Qed.

Lemma units_label_imperial : units_label_of "imperial" = "°F".
Proof. done. Qed.

(** The detail label ends with "m/s" whatever the unit label. *)
Lemma detail_label_wind_suffix (f : current_fields) (units_label : string) (a : app) :
  detail_label (shown f units_label a) =
    "Feels like: " +:+ fmt (f_feels f) +:+ " " +:+ units_label
    +:+ " | Humidity: " +:+ fmt (f_humidity f)
    +:+ "% | Wind: " +:+ fmt (f_wind f) +:+ " m/s".
Proof. done. Qed.

(** Without an icon identifier the icon label keeps what it showed. *)
Lemma show_icon_keeps_previous (icon_code : pyval) (w : world) :
  truthy icon_code = false →
  icon_label (gui (show_icon net icon_code w).2) = icon_label (gui w).
Proof. intros Hic. by rewrite show_icon_skip. Qed.

(** With an identifier the icon label shows the new 100x100 image, or
    nothing when the download or the decoding fails. *)
Lemma show_icon_replaces (icon_code : pyval) (w : world) :
  truthy icon_code = true →
  icon_label (gui (show_icon net icon_code w).2) =
    match icon_result (net (icon_request icon_code)) with
    | Ok photo => Some photo
    | Raise _ => None
    end.
Proof.
  intros Hic. rewrite show_icon_fetch by done. simpl.
  by destruct (icon_result _).
Qed.

Lemma icon_result_size (rp : reply) (photo : image) :
  icon_result rp = Ok photo → ∃ src, photo = Image src 100 100.
Proof.
  destruct rp as [msg|r]; simpl; [done|].
  destruct (raise_for_status r); simpl; [|done].
  destruct (image_open r) as [[src wd ht]|]; simpl; [|done].
  intros [= <-]. eauto.
Qed.
Lemma join_ends_with_nl (lines : list string) :
  lines ≠ [] → Forall (λ l, ends_with_nl l = true) lines →
  ends_with_nl (join lines) = true.
Proof.
  intros Hne Hall. induction Hall as [|l ls Hl Hls IH]; [done|].
  change (join (l :: ls)) with (l +:+ join ls).
  destruct ls as [|l' ls'].
  - simpl. by rewrite string_app_nil_r.
  - by apply ends_with_nl_app, IH.
Qed.

Lemma made_of_lines_ends (n : nat) (text : string) :
  made_of_lines (S n) text → ends_with_nl text = true.
Proof.
  intros (lines & Hlen & Hall & ->).
  apply join_ends_with_nl; [|done]. by destruct lines.
Qed.
(** *** Completion *)

(** [fetch_and_display] completes on every well-formed response object,
    whatever the icon and forecast requests do. *)
Lemma fetch_and_display_completes (q lat lon : pyval) (m : gmap string pyval)
    (w w1 : world) :
  fetch_weather API_KEY net q lat lon (unit_var (gui w)) w = (Ok (VDict m), w1) →
  well_formed_current m →
  ∃ w', fetch_and_display API_KEY net q lat lon w = (Ok (), w')
        ∧ city_label (gui w') = city_label (shown (current_of m)
                                  (units_label_of (unit_var (gui w))) (gui w))
        ∧ cond_label (gui w') = title (entry_description (VDict m))
        ∧ modals w' = modals w.
Proof.
  intros Hweather Hwf.
  rewrite (fetch_and_display_ok_run _ _ _ _ _ _ Hweather).
  rewrite fetch_weather_run in Hweather. injection Hweather as _ <-.
  unfold display, mbind at 1, M_bind at 1.
  rewrite display_current_run, read_current_wf by done. cbv zeta.
  destruct Hwf as (_ & _ & _ & Hweather).
  destruct (read_icon_code_wf _ Hweather) as [ic ->].
  match goal with
  | |- context [show_icon net ic ?w0] =>
      destruct (show_icon_frame ic w0) as (w2 & -> & Hm & Hcity & Hcond & _)
  end.
  rewrite show_forecast_run. eexists. split; [done|]. simpl.
  by rewrite Hm, Hcity, Hcond.
Qed.

(** X1.  A connection error or a timeout on the current-conditions request
    shows the "Network error" dialog with the text of the exception and
    nothing else: no widget changes, no further request. *)
Lemma network_error_notice (q lat lon : pyval) (w : world) (msg : string) :
  net (weather_request API_KEY q lat lon (unit_var (gui w))) = NoReply msg →
  fetch_and_display API_KEY net q lat lon w =
    (Ok (), after_modal ShowError "Network error" msg
              (after_sending [weather_request API_KEY q lat lon (unit_var (gui w))] w)).
Proof.
  intros Hnet. rewrite fetch_and_display_run. cbv zeta. by rewrite Hnet.
Qed.
End Properties.

(** * The theorems at sample inputs *)

(** The first end-to-end scenario of the specification: "Bengaluru",
    metric units. *)
Example bengaluru_scenario :
  let out := run_get_weather bengaluru_net initial_world in
  out.1 = Ok ()
  ∧ city_label (gui out.2) = "Bengaluru, IN"
  ∧ cond_label (gui out.2) = "Clear Sky"
  ∧ temp_label (gui out.2) = "27.5 °C"
  ∧ detail_label (gui out.2) = "Feels like: 29.1 °C | Humidity: 70% | Wind: 3.1 m/s"
  ∧ icon_label (gui out.2) = Some (Image "01d" 100 100)
  ∧ modals out.2 = [].
Proof. intros out. split_and!; vm_compute; reflexivity. Qed.

(** [on_get_weather_blank_input] at two spaces, a tab and a no-break
    space. *)
Lemma on_get_weather_blank_input_witness :
  blank blank_input
  ∧ run_get_weather bengaluru_net (with_city blank_input initial_world) =
      (Ok (), after_modal ShowInfo "Input needed"
                "Enter a city name or click Use My Location."
                (with_city blank_input initial_world)).
Proof.
  assert (H : blank (city_var (gui (with_city blank_input initial_world))))
    by (vm_compute; repeat constructor).
  split; [exact H|].
  exact (@on_get_weather_blank_input ref_builtins "KEY" bengaluru_net _ H).
Defined.

(** [on_use_location_failure] when the geolocation service is
    unreachable. *)
Lemma on_use_location_failure_witness :
  @location_failure ref_builtins (bengaluru_net location_request)
  ∧ @on_use_location ref_builtins "KEY" bengaluru_net initial_world =
      (Ok (), after_modal ShowError "Location failed"
                "Could not detect location via IP."
                (after_sending [location_request] initial_world)).
Proof.
  assert (H : @location_failure ref_builtins (bengaluru_net location_request))
    by exact (lf_fetch _ (ff_network "unreachable")).
  split; [exact H|].
  exact (proj2 (@on_use_location_failure ref_builtins "KEY" bengaluru_net
                  initial_world H)).
Defined.

(** [forecast_failure_is_isolated] when the forecast request times out. *)
Lemma forecast_failure_is_isolated_witness :
  let w := initial_world in
  let w1 := (run_fetch_weather no_forecast_net "Bengaluru" w).2 in
  let w2 := (run_display_current no_forecast_net bengaluru w w1).2 in
  let w3 := (run_fetch_forecast no_forecast_net "Bengaluru" w w2).2 in
  run_fetch_weather no_forecast_net "Bengaluru" w = (Ok bengaluru, w1)
  ∧ run_display_current no_forecast_net bengaluru w w1 = (Ok (), w2)
  ∧ run_fetch_forecast no_forecast_net "Bengaluru" w w2
    = (Raise (RequestException "Read timed out"), w3)
  ∧ ∃ w', run_fetch_and_display no_forecast_net "Bengaluru" w = (Ok (), w')
          ∧ temp_label (gui w') = "27.5 °C"
          ∧ tw_text (forecast_text (gui w')) = "No forecast available."
          ∧ modals w' = [].
Proof.
  intros w w1 w2 w3.
  assert (H1 : run_fetch_weather no_forecast_net "Bengaluru" w = (Ok bengaluru, w1))
    by (vm_compute; reflexivity).
  assert (H2 : run_display_current no_forecast_net bengaluru w w1 = (Ok (), w2))
    by (vm_compute; reflexivity).
  assert (H3 : run_fetch_forecast no_forecast_net "Bengaluru" w w2
               = (Raise (RequestException "Read timed out"), w3))
    by (vm_compute; reflexivity).
  split_and!; [exact H1|exact H2|exact H3|].
  destruct (@forecast_failure_is_isolated ref_builtins "KEY" no_forecast_net
              _ _ _ _ _ _ _ _ _ H1 H2 H3)
    as (w' & Hrun & _ & _ & Htemp & _ & _ & Htext & Hmodals & _).
  exists w'. split_and!; [exact Hrun| | |exact Hmodals].
  - rewrite Htemp. vm_compute. reflexivity.
  - rewrite Htext. reflexivity.
Defined.

(** [api_error_notice] at a 404 response with a [message]. *)
Lemma api_error_notice_witness :
  atlantis_net 404
    (@weather_request ref_builtins "KEY" (VStr "Atlantis") VNone VNone "metric")
  = Reply (city_not_found 404)
  ∧ 400 ≤ status_code (city_not_found 404) < 600
  ∧ modals (run_fetch_and_display (atlantis_net 404) "Atlantis" initial_world).2
    = [{| m_kind := ShowError; m_title := "API error";
          m_message := VStr "city not found" |}].
Proof.
  assert (H1 : atlantis_net 404
                 (@weather_request ref_builtins "KEY" (VStr "Atlantis") VNone VNone
                    (unit_var (gui initial_world)))
               = Reply (city_not_found 404)) by reflexivity.
  assert (H2 : 400 ≤ status_code (city_not_found 404) < 600) by (simpl; lia).
  split; [exact H1|]. split; [exact H2|].
  unfold run_fetch_and_display.
  rewrite (@api_error_notice ref_builtins "KEY" (atlantis_net 404)
             (VStr "Atlantis") VNone VNone initial_world _ H1 H2).
  reflexivity.
Defined.

(** The statement of C3 fails at status 600: [raise_for_status] raises
    nothing, no dialog is shown, and the body is rendered as if it were
    current conditions. *)
Lemma api_error_notice_counterexample :
  let out := run_fetch_and_display (atlantis_net 600) "Atlantis" initial_world in
  atlantis_net 600
    (@weather_request ref_builtins "KEY" (VStr "Atlantis") VNone VNone "metric")
  = Reply (city_not_found 600)
  ∧ 400 ≤ status_code (city_not_found 600)
  ∧ body (city_not_found 600)
    = Json (obj [("cod", VStr "404"); ("message", VStr "city not found")])
  ∧ out.1 = Ok ()
  ∧ modals out.2 = []
  ∧ city_label (gui initial_world) = ""
  ∧ city_label (gui out.2) = ", "
  ∧ temp_label (gui out.2) = "None °C".
Proof.
  intros out. split_and!; try reflexivity; try (vm_compute; reflexivity).
  simpl. lia.
Qed.

(** [missing_weather_renders_empty] at a response without the [weather]
    key. *)
Lemma missing_weather_renders_empty_witness :
  let w := initial_world in
  let m : gmap string pyval := list_to_map pune_fields in
  let w1 := (run_fetch_weather pune_net "Pune" w).2 in
  run_fetch_weather pune_net "Pune" w = (Ok (VDict m), w1)
  ∧ m !! "weather" = None
  ∧ absent_or_dict m "sys" ∧ absent_or_dict m "main" ∧ absent_or_dict m "wind"
  ∧ ∃ w', run_fetch_and_display pune_net "Pune" w = (Ok (), w')
          ∧ cond_label (gui w') = ""
          ∧ length (sent w') = 2%nat.
Proof.
  intros w m w1.
  assert (H1 : run_fetch_weather pune_net "Pune" w = (Ok (VDict m), w1))
    by (vm_compute; reflexivity).
  assert (H2 : m !! "weather" = None) by (vm_compute; reflexivity).
  assert (H3 : absent_or_dict m "sys") by (vm_compute; exact I).
  assert (H4 : absent_or_dict m "main") by (vm_compute; exact I).
  assert (H5 : absent_or_dict m "wind") by (vm_compute; exact I).
  split_and!; [exact H1|exact H2|exact H3|exact H4|exact H5|].
  destruct (@missing_weather_renders_empty ref_builtins "KEY" pune_net
              _ _ _ _ _ _ H1 H2 H3 H4 H5)
    as (_ & w' & Hrun & Hcond & _ & _ & Hsent).
  exists w'. split_and!; [exact Hrun|exact Hcond|].
  rewrite Hsent. reflexivity.
Defined.

(** The statement of C1 fails at a response without the [weather] key
    whose [main] is null: line 142 raises AttributeError and nothing is
    rendered. *)
Lemma missing_weather_counterexample :
  let out := run_fetch_and_display main_null_net "Pune" initial_world in
  (run_fetch_weather main_null_net "Pune" initial_world).1
  = Ok (obj main_null_fields)
  ∧ (list_to_map main_null_fields : gmap string pyval) !! "weather" = None
  ∧ out.1 = Raise AttributeError
  ∧ gui out.2 = gui initial_world.
Proof. intros out. split_and!; vm_compute; reflexivity. Qed.

(** [forecast_lines_rendered] at a forecast of two entries. *)
Lemma forecast_lines_rendered_witness :
  let w := initial_world in
  let fm : gmap string pyval := list_to_map
    [("list", VList [forecast_entry "2024-05-01 12:00:00" "28.0" "few clouds";
                     forecast_entry "2024-05-01 15:00:00" "29.3" "light rain"])] in
  let items := [forecast_entry "2024-05-01 12:00:00" "28.0" "few clouds";
                forecast_entry "2024-05-01 15:00:00" "29.3" "light rain"] in
  let w1 := (run_fetch_weather bengaluru_net "Bengaluru" w).2 in
  let w2 := (run_display_current bengaluru_net bengaluru w w1).2 in
  let w3 := (run_fetch_forecast bengaluru_net "Bengaluru" w w2).2 in
  run_fetch_weather bengaluru_net "Bengaluru" w = (Ok bengaluru, w1)
  ∧ run_display_current bengaluru_net bengaluru w w1 = (Ok (), w2)
  ∧ run_fetch_forecast bengaluru_net "Bengaluru" w w2 = (Ok (VDict fm), w3)
  ∧ fm !! "list" = Some (VList items)
  ∧ Forall well_formed_entry (take 5 items)
  ∧ tw_text (forecast_text
               (gui (run_fetch_and_display bengaluru_net "Bengaluru" w).2))
    = "2024-05-01 12:00:00 — 28.0°C — Few Clouds" +:+ nl
      +:+ "2024-05-01 15:00:00 — 29.3°C — Light Rain" +:+ nl.
Proof.
  intros w fm items w1 w2 w3.
  assert (H1 : run_fetch_weather bengaluru_net "Bengaluru" w = (Ok bengaluru, w1))
    by (vm_compute; reflexivity).
  assert (H2 : run_display_current bengaluru_net bengaluru w w1 = (Ok (), w2))
    by (vm_compute; reflexivity).
  assert (H3 : run_fetch_forecast bengaluru_net "Bengaluru" w w2
               = (Ok (VDict fm), w3))
    by (vm_compute; reflexivity).
  assert (H4 : fm !! "list" = Some (VList items)) by (vm_compute; reflexivity).
  assert (H5 : Forall well_formed_entry (take 5 items)).
  { repeat constructor; eexists; (split; [reflexivity|]);
      split; vm_compute; exact I. }
  split_and!; [exact H1|exact H2|exact H3|exact H4|exact H5|].
  destruct (@forecast_lines_rendered ref_builtins "KEY" bengaluru_net
              _ _ _ _ _ _ _ _ _ _ H1 H2 H3 H4 H5) as (Hrun & _).
  unfold run_fetch_and_display. rewrite Hrun. vm_compute. reflexivity.
Defined.

(** The statement of C5 fails at a forecast of two entries whose second
    has an empty [weather] list: the region holds the placeholder, which is
    not two lines. *)
Lemma forecast_lines_counterexample :
  let w := (run_get_weather bengaluru_net initial_world).2 in
  let out := run_fetch_and_display second_entry_empty_net "Bengaluru" w in
  (run_fetch_forecast second_entry_empty_net "Bengaluru" w w).1
  = Ok second_entry_empty
  ∧ (∃ it1 it2, second_entry_empty = obj [("list", VList [it1; it2])])
  ∧ out.1 = Ok ()
  ∧ tw_text (forecast_text (gui out.2)) = "No forecast available."
  ∧ ¬ made_of_lines (Nat.min 2 5) (tw_text (forecast_text (gui out.2))).
Proof.
  intros w out. split_and!; try (vm_compute; reflexivity).
  - by eexists _, _.
  - intros Hlines. apply made_of_lines_ends in Hlines.
    vm_compute in Hlines. discriminate.
Qed.

(** [empty_weather_list_raises] at a response whose [weather] is the empty
    list. *)
Lemma empty_weather_list_raises_witness :
  let w := initial_world in
  let m : gmap string pyval := list_to_map empty_weather_fields in
  let w1 := (run_fetch_weather empty_weather_net "Pune" w).2 in
  run_fetch_weather empty_weather_net "Pune" w = (Ok (VDict m), w1)
  ∧ m !! "weather" = Some (VList [])
  ∧ run_fetch_and_display empty_weather_net "Pune" w = (Raise IndexError, w1).
Proof.
  intros w m w1.
  assert (H1 : run_fetch_weather empty_weather_net "Pune" w = (Ok (VDict m), w1))
    by (vm_compute; reflexivity).
  assert (H2 : m !! "weather" = Some (VList [])) by (vm_compute; reflexivity).
  split_and!; [exact H1|exact H2|].
  destruct (@empty_weather_list_raises ref_builtins "KEY" empty_weather_net
              _ _ _ _ _ _ H1) as (Hraises & _).
  destruct (Hraises H2) as (e & Hrun & He).
  unfold run_fetch_and_display. rewrite Hrun.
  rewrite He; [reflexivity|]. vm_compute. exact I.
Defined.

(** * Where the program departs from its specification *)

(** C6.  Under imperial units the provider reports the wind speed in miles
    per hour; the temperature labels carry °F, but the detail label shows
    the wind speed with "m/s". *)
Theorem wind_suffix_ignores_units :
  let w := (run_get_weather miami_net (with_unit "imperial" initial_world)).2 in
  (sent w !! 0%nat) ≫= (λ rq, req_params rq !! "units") = Some (VStr "imperial")
  ∧ temp_label (gui w) = "81.5 °F"
  ∧ detail_label (gui w) = "Feels like: 84.4 °F | Humidity: 70% | Wind: 6.9 m/s".
Proof. intros w. split_and!; vm_compute; reflexivity. Qed.

(** C7.  A lookup shows an icon; the next lookup completes with a response
    that carries no icon identifier: the labels show the new place, and the
    icon label still shows the icon of the previous lookup. *)
Theorem previous_icon_remains :
  let w1 := (run_get_weather bengaluru_net initial_world).2 in
  let out := run_get_weather pune_net (with_city "Pune" w1) in
  icon_label (gui w1) = Some (Image "01d" 100 100)
  ∧ out.1 = Ok ()
  ∧ city_label (gui out.2) = "Pune, IN"
  ∧ read_icon_code (obj pune_fields) = Ok VNone
  ∧ icon_label (gui out.2) = Some (Image "01d" 100 100).
Proof. intros w1 out. split_and!; vm_compute; reflexivity. Qed.


(** * Further properties of the handlers *)

Section Handlers.
Context `{Py : Builtins}.
Variable API_KEY : string.
Variable net : request → reply.

Lemma read_current_icon_code (data : pyval) (f : current_fields) :
  read_current data = Ok f → ∃ icon_code, read_icon_code data = Ok icon_code.
Proof.
  intros Hf. apply read_current_inv in Hf as (m & -> & _ & _ & _ & Hok).
  by apply read_icon_code_wf.
Qed.

Lemma show_icon_outcome (icon_code : pyval) (w : world) :
  ∃ a rqs, icon_outcome (gui w) a rqs
           ∧ show_icon net icon_code w =
               (Ok (), {| gui := a; modals := modals w; sent := sent w ++ rqs |}).
Proof.
  destruct (truthy icon_code) eqn:Hic.
  - rewrite (show_icon_fetch _ _ _ Hic).
    destruct (icon_result (net (icon_request icon_code))) as [photo|e] eqn:Hres.
    + destruct (icon_result_size _ _ Hres) as [src ->].
      eexists _, _. split; [apply (io_shown _ icon_code src)|done].
    + eexists _, _. split; [apply (io_blank _ icon_code)|done].
  - rewrite (show_icon_skip _ _ _ Hic).
    exists (gui w), []. split; [constructor|].
    rewrite app_nil_r. by destruct w.
Qed.

Lemma fetch_and_display_ends_in (q lat lon : pyval) (w : world) :
  fetch_and_display_outcome API_KEY q lat lon w
    (fetch_and_display API_KEY net q lat lon w).
Proof.
  rewrite fetch_and_display_run. cbv zeta.
  destruct (fetch_result _) as [data|e].
  - unfold display, mbind at 1, M_bind at 1. rewrite display_current_run.
    destruct (read_current data) as [f|e] eqn:Hf; [|apply fd_raised].
    cbv zeta. destruct (read_current_icon_code _ _ Hf) as [ic ->].
    match goal with
    | |- context [show_icon net ic ?w0] =>
        destruct (show_icon_outcome ic w0) as (a & rqs & Hicon & ->)
    end.
    rewrite show_forecast_run. simpl in *.
    rewrite <- !app_assoc. simpl.
    by eapply fd_displayed.
  - destruct e; simpl; try apply fd_raised;
      unfold showerror, show; simpl; apply fd_dialog; set_solver.
Qed.
Lemma on_use_location_run (w : world) :
  on_use_location API_KEY net w =
    match location_result (net location_request) with
    | Ok (lat, lon) =>
        fetch_and_display API_KEY net VNone lat lon
          (after_sending [location_request] w)
    | Raise _ =>
        (Ok (), after_modal ShowError "Location failed"
                  "Could not detect location via IP."
                  (after_sending [location_request] w))
    end.
Proof.
  destruct (location_result (net location_request)) as [[lat lon]|e] eqn:Hloc.
  - by apply on_use_location_success.
  - unfold on_use_location, mbind, M_bind. by rewrite my_location_run, Hloc.
Qed.

Lemma on_get_weather_run (w : world) :
  on_get_weather API_KEY net w =
    if String.eqb (strip (city_var (gui w))) "" then
      (Ok (), after_modal ShowInfo "Input needed"
                "Enter a city name or click Use My Location." w)
    else
      fetch_and_display API_KEY net (VStr (strip (city_var (gui w)))) VNone VNone w.
Proof.
  unfold on_get_weather, mbind at 1, M_bind at 1, get_app. simpl.
  by destruct (String.eqb (strip (city_var (gui w))) "").
Qed.

(** *** What a run of [fetch_and_display] keeps *)

Lemma icon_outcome_kept (a a' : app) (rqs : list request) :
  icon_outcome a a' rqs → icon_kept a → icon_kept a'.
Proof.
  destruct 1 as [|ic src|ic]; [done| |by left].
  intros _. right. by exists src.
Qed.

Lemma shown_icon_kept (f : current_fields) (units_label : string) (a : app) :
  icon_kept a → icon_kept (shown f units_label a).
Proof. done. Qed.

Lemma icon_outcome_requests (a a' : app) (rqs : list request) :
  icon_outcome a a' rqs → Forall (handler_request API_KEY) rqs.
Proof. destruct 1; repeat constructor. Qed.

Lemma icon_outcome_inputs (a a' : app) (rqs : list request) :
  icon_outcome a a' rqs →
  city_var a' = city_var a ∧ unit_var a' = unit_var a
  ∧ forecast_text a' = forecast_text a.
Proof. by destruct 1. Qed.

Lemma place_or_coordinates_requests (q lat lon : pyval) (c : unit_choice) :
  place_or_coordinates q lat lon →
  handler_request API_KEY (weather_request API_KEY q lat lon (unit_value c))
  ∧ handler_request API_KEY (forecast_request API_KEY q lat lon (unit_value c)).
Proof.
  intros [(s & Hs & -> & -> & ->)|(a & b & -> & -> & ->)]; split;
    by constructor.
Qed.

Lemma fetch_and_display_consistent (q lat lon : pyval) (w : world) :
  place_or_coordinates q lat lon →
  consistent API_KEY w →
  consistent API_KEY (fetch_and_display API_KEY net q lat lon w).2.
Proof.
  intros Hq ([c Hc] & Hro & Hicon & Hsent).
  destruct (place_or_coordinates_requests _ _ _ c Hq) as [Hwr Hfr].
  rewrite <- Hc in Hwr, Hfr.
  destruct (fetch_and_display_ends_in q lat lon w)
    as [t msg Ht|e|f a rqs text Hio]; simpl.
  - split_and!; eauto. apply Forall_app. split; [done|by constructor].
  - split_and!; eauto. apply Forall_app. split; [done|by constructor].
  - destruct (icon_outcome_inputs _ _ _ Hio) as (_ & Hunit & _).
    split_and!.
    + exists c. unfold with_forecast, upd_forecast_text. simpl in *. congruence.
    + done.
    + by apply (icon_outcome_kept _ _ _ Hio).
    + apply Forall_app. split; [done|]. constructor; [done|].
      apply Forall_app. split; [by eapply icon_outcome_requests|].
      by constructor.
Qed.

(** *** The other failures of the current-conditions fetch *)

(** X2.  A response with a status outside 400..599 whose body is not JSON:
    when [requests] raises its own JSONDecodeError (a RequestException),
    the "Network error" dialog shows the decoder's message; when it raises
    a plain ValueError, no clause catches it and it leaves the handler.
    Either way no widget changes and no further request is sent. *)
Theorem current_fetch_undecodable_body (q lat lon : pyval) (w : world) (r : response)
    (b : bool) (msg : string) :
  net (weather_request API_KEY q lat lon (unit_var (gui w))) = Reply r →
  ¬ (400 ≤ status_code r < 600) →
  body r = NotJson b msg →
  fetch_and_display API_KEY net q lat lon w =
    if b then
      (Ok (), after_modal ShowError "Network error" msg
                (after_sending [weather_request API_KEY q lat lon (unit_var (gui w))] w))
    else
      (Raise ValueError,
       after_sending [weather_request API_KEY q lat lon (unit_var (gui w))] w).
Proof.
  intros Hnet Hstatus Hbody.
  rewrite fetch_and_display_run. cbv zeta. rewrite Hnet. simpl.
  rewrite (raise_for_status_ok r Hstatus). simpl.
  unfold response_json. rewrite Hbody. by destruct b.
Qed.

(** *** Atomicity and the order of requests *)

(** X3.  A run of [fetch_and_display] shows at most one dialog, an error
    dialog, and then returns normally; and whenever it shows a dialog or
    raises, no widget has changed and the current-conditions request is the
    only one sent. *)
Theorem fetch_and_display_is_atomic (q lat lon : pyval) (w : world) :
  let out := fetch_and_display API_KEY net q lat lon w in
  (modals out.2 = modals w
   ∨ ∃ md, modals out.2 = (modals w ++ [md])%list ∧ m_kind md = ShowError
           ∧ out.1 = Ok ())
  ∧ (modals out.2 ≠ modals w ∨ out.1 ≠ Ok () →
     gui out.2 = gui w
     ∧ sent out.2 =
         (sent w ++ [weather_request API_KEY q lat lon (unit_var (gui w))])%list).
Proof.
  cbv zeta.
  destruct (fetch_and_display_ends_in q lat lon w)
    as [t msg Ht|e|f a rqs text Hio]; simpl.
  - split; [right; eauto|done].
  - split; [by left|done].
  - split; [by left|]. by intros [|].
Qed.

(** X4.  The requests of one run of [fetch_and_display], in order: the
    current-conditions request; then, when the display takes place, one
    icon request at most and the forecast request, built from the same
    place, coordinates and units as the first. *)
Theorem fetch_and_display_request_order (q lat lon : pyval) (w : world) :
  let out := fetch_and_display API_KEY net q lat lon w in
  let wr := weather_request API_KEY q lat lon (unit_var (gui w)) in
  let fr := forecast_request API_KEY q lat lon (unit_var (gui w)) in
  (sent out.2 = (sent w ++ [wr])%list ∧ gui out.2 = gui w)
  ∨ sent out.2 = (sent w ++ [wr; fr])%list
  ∨ ∃ icon_code, sent out.2 = (sent w ++ [wr; icon_request icon_code; fr])%list.
Proof.
  cbv zeta.
  destruct (fetch_and_display_ends_in q lat lon w)
    as [t msg Ht|e|f a rqs text Hio]; simpl; [by left..|].
  right. destruct Hio as [|ic src|ic]; simpl; eauto.
Qed.

(** *** The device location *)

(** X5.  [my_location] never raises: it sends the one lookup request,
    touches no widget, shows no dialog, and returns either (None, None) or
    two floats, never a pair with only one coordinate. *)
Theorem my_location_returns_pair (w : world) :
  ∃ loc, my_location net w = (Ok loc, after_sending [location_request] w)
         ∧ (loc = (VNone, VNone)
            ∨ ∃ a b, loc = (VNum (PFloat a), VNum (PFloat b))).
Proof.
  rewrite my_location_run. eexists. split; [done|].
  destruct (location_result (net location_request)) as [loc|e] eqn:Hloc.
  - right. by eapply location_result_shape.
  - by left.
Qed.

(** X6.  When [my_location] returns a latitude, "use my location" shows no
    "Location failed" dialog and goes on as [fetch_and_display] called with
    the two floats: the next request is the current-conditions request,
    whose parameters are the credential, the units, [lat] and [lon], and no
    [q]. *)
Theorem on_use_location_fetches_by_coordinates (w w1 : world) (lat lon : pyval) :
  my_location net w = (Ok (lat, lon), w1) →
  lat ≠ VNone →
  ∃ a b,
    lat = VNum (PFloat a) ∧ lon = VNum (PFloat b)
    ∧ on_use_location API_KEY net w = fetch_and_display API_KEY net VNone lat lon w1
    ∧ (∃ rqs, sent (on_use_location API_KEY net w).2 =
                (sent w ++ location_request
                   :: weather_request API_KEY VNone lat lon (unit_var (gui w))
                   :: rqs)%list)
    ∧ req_params (weather_request API_KEY VNone lat lon (unit_var (gui w))) =
        <["lon" := lon]> (<["lat" := lat]>
          (<["units" := VStr (unit_var (gui w))]>
             (<["appid" := VStr API_KEY]> ∅))).
Proof.
  intros Hloc Hlat.
  rewrite my_location_run in Hloc. injection Hloc as Hres <-.
  destruct (location_result (net location_request)) as [loc|e] eqn:Hlr;
    [|by injection Hres as <- <-].
  subst loc. destruct (location_result_shape _ _ Hlr) as (a & b & [= -> ->]).
  exists a, b. split_and!; try done.
  - by rewrite on_use_location_run, Hlr.
  - rewrite on_use_location_run, Hlr.
    destruct (fetch_and_display_ends_in VNone (VNum (PFloat a))
                (VNum (PFloat b)) (after_sending [location_request] w))
      as [t msg Ht|e|f a' rqs text Hio]; simpl; rewrite <- app_assoc; simpl; eauto.
Qed.
(** *** "Get Weather" with a place name *)



(** *** What a well-formed response shows *)

Lemma icon_outcome_labels (a a' : app) (rqs : list request) :
  icon_outcome a a' rqs →
  city_label a' = city_label a ∧ cond_label a' = cond_label a
  ∧ temp_label a' = temp_label a ∧ detail_label a' = detail_label a.
Proof. by destruct 1. Qed.

Lemma fetch_and_display_shown (q lat lon : pyval) (m : gmap string pyval)
    (w w1 : world) :
  fetch_weather API_KEY net q lat lon (unit_var (gui w)) w = (Ok (VDict m), w1) →
  well_formed_current m →
  ∃ a rqs text,
    icon_outcome (shown (current_of m) (units_label_of (unit_var (gui w))) (gui w))
      a rqs
    ∧ fetch_and_display API_KEY net q lat lon w =
        (Ok (), {| gui := with_forecast text a; modals := modals w;
                   sent := sent w1 ++ rqs
                           ++ [forecast_request API_KEY q lat lon (unit_var (gui w))] |}).
Proof.
  intros Hweather Hwf.
  rewrite (fetch_and_display_ok_run _ _ _ _ _ _ _ _ Hweather).
  rewrite fetch_weather_run in Hweather. injection Hweather as _ <-.
  unfold display, mbind at 1, M_bind at 1.
  rewrite display_current_run, read_current_wf by done. cbv zeta.
  destruct Hwf as (_ & _ & _ & Hok).
  destruct (read_icon_code_wf _ Hok) as [ic ->].
  match goal with
  | |- context [show_icon net ic ?w0] =>
      destruct (show_icon_outcome ic w0) as (a & rqs & Hicon & ->)
  end.
  rewrite show_forecast_run. simpl in *.
  eexists a, rqs, _. split; [done|]. by rewrite <- !app_assoc.
Qed.

(** X8.  For a well-formed response object, whatever the icon and forecast
    requests bring: the handler completes without a dialog; the city label
    is [name, country], the condition label the title-cased description,
    the temperature label the temperature with "°C" under metric and "°F"
    otherwise, the detail label the feels-like temperature with the same
    suffix, the humidity and the wind speed; each missing field shows its
    default; the forecast region ends read-only. *)
Theorem current_conditions_rendered (q lat lon : pyval) (m : gmap string pyval)
    (w w1 : world) :
  fetch_weather API_KEY net q lat lon (unit_var (gui w)) w = (Ok (VDict m), w1) →
  well_formed_current m →
  let suffix := if String.eqb (unit_var (gui w)) "metric" then "°C" else "°F" in
  ∃ w', fetch_and_display API_KEY net q lat lon w = (Ok (), w')
        ∧ city_label (gui w') =
            fmt (default (VStr "") (m !! "name")) +:+ ", "
            +:+ fmt (field_in m "sys" "country" (VStr ""))
        ∧ cond_label (gui w') = title (entry_description (VDict m))
        ∧ temp_label (gui w') =
            fmt (field_in m "main" "temp" VNone) +:+ " " +:+ suffix
        ∧ detail_label (gui w') =
            "Feels like: " +:+ fmt (field_in m "main" "feels_like" VNone)
            +:+ " " +:+ suffix
            +:+ " | Humidity: " +:+ fmt (field_in m "main" "humidity" VNone)
            +:+ "% | Wind: " +:+ fmt (field_in m "wind" "speed" VNone) +:+ " m/s"
        ∧ modals w' = modals w
        ∧ tw_normal (forecast_text (gui w')) = false.
Proof.
  intros Hweather Hwf suffix.
  destruct (fetch_and_display_shown _ _ _ _ _ _ Hweather Hwf)
    as (a & rqs & text & Hio & ->).
  destruct (icon_outcome_labels _ _ _ Hio) as (Hcity & Hcond & Htemp & Hdetail).
  eexists. split; [done|]. simpl.
  by rewrite Hcity, Hcond, Htemp, Hdetail.
Qed.

(** X9.  For a response object without [name], [sys], [main], [wind] and
    [weather], the handler completes and the labels read ", ", "",
    "None" with the unit suffix, and "Feels like: None ... | Humidity:
    None% | Wind: None m/s": the missing numbers show as Python's None. *)
Theorem missing_fields_show_none (q lat lon : pyval) (m : gmap string pyval)
    (w w1 : world) :
  fetch_weather API_KEY net q lat lon (unit_var (gui w)) w = (Ok (VDict m), w1) →
  m !! "name" = None → m !! "sys" = None → m !! "main" = None →
  m !! "wind" = None → m !! "weather" = None →
  let suffix := if String.eqb (unit_var (gui w)) "metric" then "°C" else "°F" in
  ∃ w', fetch_and_display API_KEY net q lat lon w = (Ok (), w')
        ∧ city_label (gui w') = ", "
        ∧ cond_label (gui w') = ""
        ∧ temp_label (gui w') = "None " +:+ suffix
        ∧ detail_label (gui w') =
            "Feels like: None " +:+ suffix
            +:+ " | Humidity: None% | Wind: None m/s"
        ∧ icon_label (gui w') = icon_label (gui w).
Proof.
  intros Hweather Hname Hsys Hmain Hwind Hw suffix.
  assert (Hwf : well_formed_current m).
  { unfold well_formed_current, absent_or_dict, weather_ok.
    by rewrite Hsys, Hmain, Hwind, Hw. }
  rewrite (fetch_and_display_ok_run _ _ _ _ _ _ _ _ Hweather).
  rewrite fetch_weather_run in Hweather. injection Hweather as _ <-.
  unfold display, mbind at 1, M_bind at 1.
  rewrite display_current_run, read_current_wf by done. cbv zeta.
  rewrite (read_icon_code_absent _ Hw), show_icon_skip by done.
  rewrite show_forecast_run. eexists. split; [done|]. simpl.
  unfold field_in, entry_description. rewrite Hname, Hsys, Hmain, Hwind, Hw.
  simpl. by rewrite title_empty.
Qed.

(** X10.  For a well-formed response whose icon identifier is truthy, the
    handler completes and has requested the icon at the URL made from the
    identifier with a timeout of 8 seconds; the icon label shows the
    downloaded image resized to 100x100, which [icon_img] references, or
    nothing when the request, its status or the decoding fails.  The
    condition label is written either way. *)
Theorem icon_shown_or_blank (q lat lon icon_code : pyval) (m : gmap string pyval)
    (w w1 : world) :
  fetch_weather API_KEY net q lat lon (unit_var (gui w)) w = (Ok (VDict m), w1) →
  well_formed_current m →
  read_icon_code (VDict m) = Ok icon_code →
  truthy icon_code = true →
  let rq := {| req_url := "http://openweathermap.org/img/wn/" +:+ fmt icon_code
                          +:+ "@2x.png";
               req_params := ∅; req_timeout := 8 |} in
  ∃ w', fetch_and_display API_KEY net q lat lon w = (Ok (), w')
        ∧ rq ∈ sent w'
        ∧ icon_label (gui w') =
            match net rq with
            | Reply r =>
                if decide (400 ≤ status_code r < 600) then None
                else match picture r with
                     | Some (Image src _ _) => Some (Image src 100 100)
                     | None => None
                     end
            | NoReply _ => None
            end
        ∧ (∀ photo, icon_label (gui w') = Some photo →
                    icon_img (gui w') = Some photo)
        ∧ cond_label (gui w') = title (entry_description (VDict m)).
Proof.
  intros Hweather Hwf Hic Htruthy rq.
  rewrite (fetch_and_display_ok_run _ _ _ _ _ _ _ _ Hweather).
  rewrite fetch_weather_run in Hweather. injection Hweather as _ <-.
  unfold display, mbind at 1, M_bind at 1.
  rewrite display_current_run, read_current_wf by done. cbv zeta.
  rewrite Hic, show_icon_fetch by done.
  rewrite show_forecast_run. eexists. split; [done|].
  change (icon_request icon_code) with rq. simpl.
  split; [set_solver|].
  destruct (net rq) as [msg|r]; simpl; [done|].
  destruct (decide (400 ≤ status_code r < 600)) as [Hs|Hs].
  - by rewrite (raise_for_status_error r Hs).
  - rewrite (raise_for_status_ok r Hs). simpl. unfold image_open.
    destruct (picture r) as [[src wd ht]|]; simpl; split_and!; try done;
      by intros photo [= <-].
Qed.
(** *** Forecast bodies of other shapes *)

Lemma fetch_and_display_forecast (q lat lon data fc : pyval) (w w1 w2 w3 : world) :
  fetch_weather API_KEY net q lat lon (unit_var (gui w)) w = (Ok data, w1) →
  display_current net (unit_var (gui w)) data w1 = (Ok (), w2) →
  fetch_forecast API_KEY net q lat lon (unit_var (gui w)) w2 = (Ok fc, w3) →
  fetch_and_display API_KEY net q lat lon w =
    (Ok (),
     {| gui := with_forecast
                 match (items ← (l ← py_get fc "list" (VList []); py_slice_to 5 l);
                        forecast_loop items (units_label_of (unit_var (gui w))) "")
                 with
                 | Ok text => text
                 | Raise _ => NO_FORECAST
                 end (gui w2);
        modals := modals w2; sent := sent w3 |}).
Proof.
  intros Hweather Hcurrent Hforecast.
  rewrite (fetch_and_display_ok_run _ _ _ _ _ _ _ _ Hweather).
  unfold display, mbind at 1, M_bind at 1. rewrite Hcurrent.
  rewrite fetch_forecast_run in Hforecast. injection Hforecast as Hres <-.
  rewrite show_forecast_run. unfold forecast_text_result. by rewrite Hres.
Qed.

Lemma forecast_loop_raises (items : list pyval) (units_label text : string) :
  Exists (λ it, ¬ well_formed_entry it) items →
  ∃ e, forecast_loop items units_label text = Raise e.
Proof.
  intros Hbad. revert text.
  induction Hbad as [it items Hit|it items _ IH]; intros text; simpl.
  - destruct (forecast_line it units_label) as [line|e] eqn:Hline; simpl; [|eauto].
    destruct Hit. by eapply forecast_line_inv.
  - destruct (forecast_line it units_label) as [line|e]; simpl; eauto.
Qed.

(** X11.  When the forecast body is an object without a [list] key, the
    forecast region is emptied and left read-only: no line, no
    placeholder, no dialog, and the rest of the display stays as the
    current-conditions step left it. *)
Theorem forecast_without_list_is_empty (q lat lon data : pyval)
    (fm : gmap string pyval) (w w1 w2 w3 : world) :
  fetch_weather API_KEY net q lat lon (unit_var (gui w)) w = (Ok data, w1) →
  display_current net (unit_var (gui w)) data w1 = (Ok (), w2) →
  fetch_forecast API_KEY net q lat lon (unit_var (gui w)) w2 = (Ok (VDict fm), w3) →
  fm !! "list" = None →
  fetch_and_display API_KEY net q lat lon w =
    (Ok (), {| gui := with_forecast "" (gui w2); modals := modals w2;
               sent := sent w3 |}).
Proof.
  intros Hweather Hcurrent Hforecast Hlist.
  rewrite (fetch_and_display_forecast _ _ _ _ _ _ _ _ _ Hweather Hcurrent Hforecast).
  simpl. by rewrite Hlist.
Qed.

(** X12.  When the forecast request succeeds but its decoded body cannot
    be used (not an object; [list] neither a list nor a str; one of the
    first five entries not well-formed), the handler still completes: the
    forecast region holds exactly "No forecast available.", no dialog is
    shown, and the rest of the display stays as the current-conditions step
    left it. *)
Theorem unusable_forecast_shows_placeholder (q lat lon data fc : pyval)
    (w w1 w2 w3 : world) :
  fetch_weather API_KEY net q lat lon (unit_var (gui w)) w = (Ok data, w1) →
  display_current net (unit_var (gui w)) data w1 = (Ok (), w2) →
  fetch_forecast API_KEY net q lat lon (unit_var (gui w)) w2 = (Ok fc, w3) →
  unusable_forecast fc →
  fetch_and_display API_KEY net q lat lon w =
    (Ok (), {| gui := with_forecast NO_FORECAST (gui w2); modals := modals w2;
               sent := sent w3 |}).
Proof.
  intros Hweather Hcurrent Hforecast Hbad.
  rewrite (fetch_and_display_forecast _ _ _ _ _ _ _ _ _ Hweather Hcurrent Hforecast).
  destruct Hbad as [fc Hfc|fm v Hlist Hl Hs|fm items Hlist Hitems]; simpl.
  - destruct fc; try done. by destruct (Hfc m).
  - rewrite Hlist. simpl. destruct v; try done.
    + by destruct (Hs s).
    + by destruct (Hl l).
  - rewrite Hlist. simpl.
    by destruct (forecast_loop_raises _ (units_label_of (unit_var (gui w))) ""
                   Hitems) as [e ->].
Qed.
End Handlers.

(** * Properties of the session *)

Section Session.
Context `{Py : Builtins}.
Variable API_KEY : string.

Lemma handle_consistent (ev : event) (w : world) :
  consistent API_KEY w → consistent API_KEY (handle API_KEY ev w).
Proof.
  intros Hw. destruct ev as [text|c|net'|net']; simpl.
  - done.
  - destruct Hw as (_ & Hro & Hicon & Hsent). split_and!; eauto.
  - rewrite on_get_weather_run.
    destruct (String.eqb_spec (strip (city_var (gui w))) "") as [|Hq]; [done|].
    apply fetch_and_display_consistent; [|done]. left. eauto.
  - rewrite on_use_location_run.
    assert (Hw' : consistent API_KEY (after_sending [location_request] w)).
    { destruct Hw as (Hc & Hro & Hicon & Hsent). split_and!; try done.
      apply Forall_app. split; [done|]. repeat constructor. }
    destruct (location_result (net' location_request)) as [[lat lon]|e] eqn:Hloc.
    + apply fetch_and_display_consistent; [|done].
      destruct (location_result_shape _ _ Hloc) as (a & b & [= -> ->]).
      right. eauto.
    + done.
Qed.

Lemma mainloop_consistent (events : list event) (w : world) :
  consistent API_KEY w → consistent API_KEY (mainloop API_KEY events w).
Proof.
  revert w. induction events as [|ev events IH]; intros w Hw; [done|].
  apply IH. by apply handle_consistent.
Qed.

Lemma initial_world_consistent : consistent API_KEY initial_world.
Proof.
  split_and!; [by exists Metric|done|by left|constructor].
Qed.
(** *** Invariants of the session *)

(** X13.  Whatever the user does and whatever the network answers, after
    every event the forecast region is read-only (state "disabled"), as
    [create_widgets] left it. *)
Theorem session_forecast_read_only (events : list event) :
  tw_normal (forecast_text (gui (mainloop API_KEY events initial_world))) = false.
Proof.
  by destruct (mainloop_consistent events initial_world initial_world_consistent)
    as (_ & Hro & _).
Qed.

(** X14.  Whatever the user does and whatever the network answers, after
    every event the icon label shows nothing or a 100x100 image, and an
    image it shows is the one [icon_img] references. *)
Theorem session_icon_kept (events : list event) :
  let a := gui (mainloop API_KEY events initial_world) in
  icon_label a = None
  ∨ ∃ src, icon_label a = Some (Image src 100 100) ∧ icon_img a = icon_label a.
Proof.
  by destruct (mainloop_consistent events initial_world initial_world_consistent)
    as (_ & _ & Hicon & _).
Qed.

(** X15.  Every request of a session carries a timeout: 6 seconds for the
    location lookup, 8 for an icon, 10 for the provider. *)
Theorem session_requests_have_timeouts (events : list event) :
  Forall (λ rq, req_timeout rq = 6 ∨ req_timeout rq = 8 ∨ req_timeout rq = 10)
    (sent (mainloop API_KEY events initial_world)).
Proof.
  destruct (mainloop_consistent events initial_world initial_world_consistent)
    as (_ & _ & _ & Hsent).
  eapply Forall_impl; [exact Hsent|]. intros rq []; simpl; auto.
Qed.

(** *** The parameters of every request *)

Lemma location_url_not_provider :
  LOCATION_URL ≠ WEATHER_URL ∧ LOCATION_URL ≠ FORECAST_URL.
Proof. by split. Qed.

Lemma icon_url_not_provider (icon_code : pyval) :
  ICON_URL icon_code ≠ WEATHER_URL ∧ ICON_URL icon_code ≠ FORECAST_URL.
Proof.
  split; intros H; apply (f_equal (String.get 4)) in H;
    vm_compute in H; discriminate H.
Qed.

Lemma outgoing_place (units s : string) :
  s ≠ "" →
  outgoing (query_params API_KEY (VStr s) VNone VNone units)
  = place_params API_KEY units s.
Proof.
  intros Hs. rewrite query_params_place by done.
  unfold outgoing, place_params. apply map_filter_id. intros i x Hix.
  rewrite !lookup_insert_Some, lookup_empty in Hix.
  repeat (destruct Hix as [[_ <-]|[_ Hix]]; [done|]). done.
Qed.

Lemma outgoing_coordinates (units : string) (a b : pynum) :
  outgoing (query_params API_KEY VNone (VNum a) (VNum b) units)
  = coordinate_params API_KEY units a b.
Proof.
  rewrite query_params_coordinates.
  unfold outgoing, coordinate_params. apply map_filter_id. intros i x Hix.
  rewrite !lookup_insert_Some, lookup_empty in Hix.
  repeat (destruct Hix as [[_ <-]|[_ Hix]]; [done|]). done.
Qed.


(** C8.  [fetch_weather] and [fetch_forecast] each send one request, to
    their endpoint, with the [params] dict that [query_params] builds.
    That dict always holds the credential under [appid] and the unit system
    under [units]; when [q] is truthy its other key is [q] alone, holding
    [q], and otherwise its other keys are [lat] and [lon] alone, holding
    [lat] and [lon]: never both sets.  On the wire, where [requests] leaves
    out None values: called with a non-empty place name the parameters are
    exactly [appid], [units] and [q]; called with two coordinates they are
    exactly [appid], [units], [lat] and [lon]; and every request that
    reaches one of the two endpoints in any session carries exactly one of
    these two sets, with "metric" or "imperial" as units. *)
Theorem fetch_sends_one_location_set (net : request → reply) (q lat lon : pyval)
    (units : string) (w : world) (events : list event) :
  let p := query_params API_KEY q lat lon units in
  sent (fetch_weather API_KEY net q lat lon units w).2
    = (sent w ++ [{| req_url := WEATHER_URL; req_params := p;
                     req_timeout := 10 |}])%list
  ∧ sent (fetch_forecast API_KEY net q lat lon units w).2
    = (sent w ++ [{| req_url := FORECAST_URL; req_params := p;
                     req_timeout := 10 |}])%list
  ∧ p !! "appid" = Some (VStr API_KEY)
  ∧ p !! "units" = Some (VStr units)
  ∧ (truthy q = true →
     dom p = {["appid"; "units"; "q"]} ∧ p !! "q" = Some q)
  ∧ (truthy q = false →
     dom p = {["appid"; "units"; "lat"; "lon"]}
     ∧ p !! "lat" = Some lat ∧ p !! "lon" = Some lon)
  ∧ (∀ s, s ≠ "" →
       outgoing (query_params API_KEY (VStr s) VNone VNone units)
       = place_params API_KEY units s)
  ∧ (∀ a b,
       outgoing (query_params API_KEY VNone (VNum a) (VNum b) units)
       = coordinate_params API_KEY units a b)
  ∧ Forall (λ rq,
      req_url rq = WEATHER_URL ∨ req_url rq = FORECAST_URL →
      ∃ c, (∃ s, s ≠ ""
                 ∧ outgoing (req_params rq)
                   = place_params API_KEY (unit_value c) s)
           ∨ (∃ a b, outgoing (req_params rq)
                     = coordinate_params API_KEY (unit_value c) (PFloat a) (PFloat b)))
      (sent (mainloop API_KEY events initial_world)).
Proof.
  cbv zeta. split_and!.
  - by rewrite fetch_weather_run.
  - by rewrite fetch_forecast_run.
  - unfold query_params. by destruct (truthy q).
  - unfold query_params. by destruct (truthy q).
  - intros Hq. unfold query_params. rewrite Hq. split; [|done].
    rewrite !dom_insert_L, dom_empty_L. set_solver.
  - intros Hq. unfold query_params. rewrite Hq. split; [|done].
    rewrite !dom_insert_L, dom_empty_L. set_solver.
  - intros s Hs. by apply outgoing_place.
  - intros a b. apply outgoing_coordinates.
  - destruct (mainloop_consistent events initial_world initial_world_consistent)
      as (_ & _ & _ & Hsent).
    eapply Forall_impl; [exact Hsent|]. intros rq Hrq Hurl.
    destruct Hrq as [|ic|s c Hs|s c Hs|a b c|a b c]; simpl in *.
    + destruct location_url_not_provider. by destruct Hurl.
    + destruct (icon_url_not_provider ic). by destruct Hurl.
    + exists c. left. exists s. split; [done|]. by apply outgoing_place.
    + exists c. left. exists s. split; [done|]. by apply outgoing_place.
    + exists c. right. exists a, b. apply outgoing_coordinates.
    + exists c. right. exists a, b. apply outgoing_coordinates.
Qed.

(** X17.  Neither button ever writes the entry or the unit control: after
    a click the entry text and the selected unit are what they were. *)
Theorem clicks_keep_inputs (net : request → reply) (w : world) :
  let w1 := handle API_KEY (ClickGetWeather net) w in
  let w2 := handle API_KEY (ClickUseLocation net) w in
  city_var (gui w1) = city_var (gui w) ∧ unit_var (gui w1) = unit_var (gui w)
  ∧ city_var (gui w2) = city_var (gui w) ∧ unit_var (gui w2) = unit_var (gui w).
Proof.
  assert (Hfd : ∀ q lat lon w0,
            city_var (gui (fetch_and_display API_KEY net q lat lon w0).2)
            = city_var (gui w0)
            ∧ unit_var (gui (fetch_and_display API_KEY net q lat lon w0).2)
              = unit_var (gui w0)).
  { intros q lat lon w0.
    destruct (fetch_and_display_ends_in API_KEY net q lat lon w0)
      as [t msg Ht|e|f a rqs text Hio]; simpl; [done..|].
    by destruct (icon_outcome_inputs _ _ _ Hio) as (-> & -> & _). }
  cbv zeta. simpl. rewrite on_get_weather_run, on_use_location_run.
  split_and!.
  - destruct (String.eqb _ ""); [done|apply Hfd].
  - destruct (String.eqb _ ""); [done|apply Hfd].
  - destruct (location_result _) as [[lat lon]|e]; [|done].
    exact (proj1 (Hfd VNone lat lon (after_sending [location_request] w))).
  - destruct (location_result _) as [[lat lon]|e]; [|done].
    exact (proj2 (Hfd VNone lat lon (after_sending [location_request] w))).
Qed.
End Session.

(** X18.  The program exits with the diagnostic, before any window or
    request, exactly when the credential is absent or empty; otherwise the
    window opens and every [appid] parameter sent during the session is the
    credential read at start-up. *)
Theorem main_needs_credential `{Py : Builtins} (env : option string)
    (events : list event) :
  match main env events with
  | Exited msg =>
      (env = None ∨ env = Some "")
      ∧ msg = "Set OPENWEATHER_API_KEY in environment or .env"
  | Window w =>
      ∃ key, env = Some key ∧ key ≠ ""
             ∧ w = mainloop key events initial_world
             ∧ ∀ rq v, rq ∈ sent w → req_params rq !! "appid" = Some v →
                       v = VStr key
  end.
Proof.
  unfold main, load_api_key. destruct env as [key|]; [|by split; [left|]].
  destruct (String.eqb_spec key "") as [->|Hkey]; [by split; [right|]|].
  exists key. split_and!; try done. intros rq v Hrq Hv.
  destruct (mainloop_consistent key events initial_world
              (initial_world_consistent key)) as (_ & _ & _ & Hsent).
  rewrite Forall_forall in Hsent.
  destruct (Hsent rq Hrq) as [|ic|s c Hs|s c Hs|a b c|a b c]; simpl in Hv;
    try done.
  - rewrite query_params_place in Hv by done. by simplify_map_eq.
  - rewrite query_params_place in Hv by done. by simplify_map_eq.
  - rewrite query_params_coordinates in Hv. by simplify_map_eq.
  - rewrite query_params_coordinates in Hv. by simplify_map_eq.
Qed.


(** * The further properties at sample inputs *)

(** [network_error_notice] with no connection. *)
Lemma network_error_notice_witness :
  offline_net
    (@weather_request ref_builtins "KEY" (VStr "Bengaluru") VNone VNone "metric")
  = NoReply "Connection refused"
  ∧ run_fetch_and_display offline_net "Bengaluru" initial_world =
      (Ok (), after_modal ShowError "Network error" "Connection refused"
                (after_sending
                   [@weather_request ref_builtins "KEY" (VStr "Bengaluru") VNone
                      VNone "metric"] initial_world)).
Proof.
  assert (H : offline_net
                (@weather_request ref_builtins "KEY" (VStr "Bengaluru") VNone VNone
                   (unit_var (gui initial_world)))
              = NoReply "Connection refused") by reflexivity.
  split; [exact H|].
  exact (@network_error_notice ref_builtins "KEY" offline_net (VStr "Bengaluru")
           VNone VNone initial_world _ H).
Defined.

(** [current_fetch_undecodable_body] at an HTML page, the decoder raising a
    plain ValueError. *)
Lemma current_fetch_undecodable_body_witness :
  html_net false
    (@weather_request ref_builtins "KEY" (VStr "Bengaluru") VNone VNone "metric")
  = Reply (html_response false)
  ∧ ¬ (400 ≤ status_code (html_response false) < 600)
  ∧ body (html_response false) = NotJson false "Expecting value"
  ∧ (run_fetch_and_display (html_net false) "Bengaluru" initial_world).1
    = Raise ValueError.
Proof.
  assert (H1 : html_net false
                 (@weather_request ref_builtins "KEY" (VStr "Bengaluru") VNone VNone
                    (unit_var (gui initial_world)))
               = Reply (html_response false)) by reflexivity.
  assert (H2 : ¬ (400 ≤ status_code (html_response false) < 600))
    by (simpl; lia).
  assert (H3 : body (html_response false) = NotJson false "Expecting value")
    by reflexivity.
  split; [exact H1|]. split; [exact H2|]. split; [exact H3|].
  unfold run_fetch_and_display.
  rewrite (@current_fetch_undecodable_body ref_builtins "KEY" (html_net false)
             (VStr "Bengaluru") VNone VNone initial_world _ _ _ H1 H2 H3).
  reflexivity.
Defined.

(** [on_use_location_fetches_by_coordinates] when the geolocation service
    answers. *)
Lemma on_use_location_fetches_by_coordinates_witness :
  let w1 := (@my_location ref_builtins located_net initial_world).2 in
  @my_location ref_builtins located_net initial_world
  = (Ok (num "12.97", num "77.0"), w1)
  ∧ num "12.97" ≠ VNone
  ∧ @on_use_location ref_builtins "KEY" located_net initial_world
    = @fetch_and_display ref_builtins "KEY" located_net VNone (num "12.97")
        (num "77.0") w1.
Proof.
  intros w1.
  assert (H1 : @my_location ref_builtins located_net initial_world
               = (Ok (num "12.97", num "77.0"), w1)) by (vm_compute; reflexivity).
  assert (H2 : num "12.97" ≠ VNone) by discriminate.
  split; [exact H1|]. split; [exact H2|].
  destruct (@on_use_location_fetches_by_coordinates ref_builtins "KEY" located_net
              _ _ _ _ H1 H2) as (a & b & _ & _ & Hrun & _).
  exact Hrun.
Defined.


(** [current_conditions_rendered] at a response without the [weather]
    key. *)
Lemma current_conditions_rendered_witness :
  let w := with_city "Pune" initial_world in
  let m : gmap string pyval := list_to_map pune_fields in
  let w1 := (run_fetch_weather pune_net "Pune" w).2 in
  run_fetch_weather pune_net "Pune" w = (Ok (VDict m), w1)
  ∧ well_formed_current m
  ∧ ∃ w', run_fetch_and_display pune_net "Pune" w = (Ok (), w')
          ∧ city_label (gui w') = "Pune, IN"
          ∧ temp_label (gui w') = "31.2 °C".
Proof.
  intros w m w1.
  assert (H1 : run_fetch_weather pune_net "Pune" w = (Ok (VDict m), w1))
    by (vm_compute; reflexivity).
  assert (H2 : well_formed_current m) by (split_and!; vm_compute; exact I).
  split; [exact H1|]. split; [exact H2|].
  destruct (@current_conditions_rendered ref_builtins "KEY" pune_net
              _ _ _ _ _ _ H1 H2) as (w' & Hrun & Hcity & _ & Htemp & _).
  exists w'. split; [exact Hrun|]. split.
  - rewrite Hcity. vm_compute. reflexivity.
  - rewrite Htemp. vm_compute. reflexivity.
Defined.

(** [missing_fields_show_none] at the empty object. *)
Lemma missing_fields_show_none_witness :
  let w := initial_world in
  let m : gmap string pyval := ∅ in
  let w1 := (run_fetch_weather empty_object_net "Bengaluru" w).2 in
  run_fetch_weather empty_object_net "Bengaluru" w = (Ok (VDict m), w1)
  ∧ m !! "name" = None ∧ m !! "sys" = None ∧ m !! "main" = None
  ∧ m !! "wind" = None ∧ m !! "weather" = None
  ∧ ∃ w', run_fetch_and_display empty_object_net "Bengaluru" w = (Ok (), w')
          ∧ temp_label (gui w') = "None °C".
Proof.
  intros w m w1.
  assert (H1 : run_fetch_weather empty_object_net "Bengaluru" w
               = (Ok (VDict m), w1)) by (vm_compute; reflexivity).
  assert (H : ∀ k, m !! k = None) by (intros k; apply lookup_empty).
  split_and!; [exact H1|apply H..|].
  destruct (@missing_fields_show_none ref_builtins "KEY" empty_object_net
              _ _ _ _ _ _ H1 (H "name") (H "sys") (H "main") (H "wind")
              (H "weather")) as (w' & Hrun & _ & _ & Htemp & _).
  exists w'. split; [exact Hrun|exact Htemp].
Defined.

(** [icon_shown_or_blank] at the icon "01d". *)
Lemma icon_shown_or_blank_witness :
  ∃ m, bengaluru = VDict m
       ∧ (run_fetch_weather bengaluru_net "Bengaluru" initial_world).1
         = Ok (VDict m)
       ∧ well_formed_current m
       ∧ read_icon_code (VDict m) = Ok (VStr "01d")
       ∧ @truthy ref_builtins (VStr "01d") = true
       ∧ ∃ w', run_fetch_and_display bengaluru_net "Bengaluru" initial_world
               = (Ok (), w')
               ∧ icon_label (gui w') = Some (Image "01d" 100 100).
Proof.
  eexists. split; [reflexivity|].
  match goal with
  | |- _ ∧ well_formed_current ?m0 ∧ _ => set (m := m0)
  end.
  assert (H1 : run_fetch_weather bengaluru_net "Bengaluru" initial_world
               = (Ok (VDict m),
                  (run_fetch_weather bengaluru_net "Bengaluru" initial_world).2))
    by (vm_compute; reflexivity).
  assert (H2 : well_formed_current m) by (split_and!; vm_compute; exact I).
  assert (H3 : read_icon_code (VDict m) = Ok (VStr "01d"))
    by (vm_compute; reflexivity).
  assert (H4 : @truthy ref_builtins (VStr "01d") = true) by reflexivity.
  split; [by rewrite H1|]. split; [exact H2|]. split; [exact H3|].
  split; [exact H4|].
  destruct (@icon_shown_or_blank ref_builtins "KEY" bengaluru_net
              _ _ _ _ _ _ _ H1 H2 H3 H4) as (w' & Hrun & _ & Hicon & _).
  exists w'. split; [exact Hrun|]. rewrite Hicon. vm_compute. reflexivity.
Defined.

(** [forecast_without_list_is_empty] at a forecast body without [list]. *)
Lemma forecast_without_list_is_empty_witness :
  let w := initial_world in
  let fm : gmap string pyval := list_to_map [("cod", VStr "200")] in
  let w1 := (run_fetch_weather no_list_net "Bengaluru" w).2 in
  let w2 := (run_display_current no_list_net bengaluru w w1).2 in
  let w3 := (run_fetch_forecast no_list_net "Bengaluru" w w2).2 in
  run_fetch_weather no_list_net "Bengaluru" w = (Ok bengaluru, w1)
  ∧ run_display_current no_list_net bengaluru w w1 = (Ok (), w2)
  ∧ run_fetch_forecast no_list_net "Bengaluru" w w2 = (Ok (VDict fm), w3)
  ∧ fm !! "list" = None
  ∧ forecast_text (gui (run_fetch_and_display no_list_net "Bengaluru" w).2)
    = {| tw_text := ""; tw_normal := false |}.
Proof.
  intros w fm w1 w2 w3.
  assert (H1 : run_fetch_weather no_list_net "Bengaluru" w = (Ok bengaluru, w1))
    by (vm_compute; reflexivity).
  assert (H2 : run_display_current no_list_net bengaluru w w1 = (Ok (), w2))
    by (vm_compute; reflexivity).
  assert (H3 : run_fetch_forecast no_list_net "Bengaluru" w w2
               = (Ok (VDict fm), w3)) by (vm_compute; reflexivity).
  assert (H4 : fm !! "list" = None) by (vm_compute; reflexivity).
  split_and!; [exact H1|exact H2|exact H3|exact H4|].
  unfold run_fetch_and_display.
  rewrite (@forecast_without_list_is_empty ref_builtins "KEY" no_list_net
             _ _ _ _ _ _ _ _ _ H1 H2 H3 H4).
  reflexivity.
Defined.

(** [unusable_forecast_shows_placeholder] at a forecast whose second entry
    has an empty [weather] list. *)
Lemma unusable_forecast_shows_placeholder_witness :
  let w := initial_world in
  let net := second_entry_empty_net in
  let w1 := (run_fetch_weather net "Bengaluru" w).2 in
  let w2 := (run_display_current net bengaluru w w1).2 in
  let w3 := (run_fetch_forecast net "Bengaluru" w w2).2 in
  run_fetch_weather net "Bengaluru" w = (Ok bengaluru, w1)
  ∧ run_display_current net bengaluru w w1 = (Ok (), w2)
  ∧ run_fetch_forecast net "Bengaluru" w w2 = (Ok second_entry_empty, w3)
  ∧ unusable_forecast second_entry_empty
  ∧ forecast_text (gui (run_fetch_and_display net "Bengaluru" w).2)
    = {| tw_text := "No forecast available."; tw_normal := false |}.
Proof.
  intros w net w1 w2 w3.
  assert (H1 : run_fetch_weather net "Bengaluru" w = (Ok bengaluru, w1))
    by (vm_compute; reflexivity).
  assert (H2 : run_display_current net bengaluru w w1 = (Ok (), w2))
    by (vm_compute; reflexivity).
  assert (H3 : run_fetch_forecast net "Bengaluru" w w2
               = (Ok second_entry_empty, w3)) by (vm_compute; reflexivity).
  assert (H4 : unusable_forecast second_entry_empty).
  { unfold second_entry_empty, obj. eapply uf_entry; [vm_compute; reflexivity|].
    apply Exists_cons_tl, Exists_cons_hd.
    intros (m & Heq & _ & Hok). injection Heq as <-.
    vm_compute in Hok. exact Hok. }
  split_and!; [exact H1|exact H2|exact H3|exact H4|].
  unfold run_fetch_and_display.
  rewrite (@unusable_forecast_shows_placeholder ref_builtins "KEY" net
             _ _ _ _ _ _ _ _ _ H1 H2 H3 H4).
  reflexivity.
Defined.
